(** * Reward ledger and progression engine of the xpg backend

    Shallow embedding of the player-facing handlers of the backend
    ([app/api/v1/nfc.py], [app/api/v1/progress.py], [app/api/v1/rewards.py],
    [app/api/v1/contents.py], [app/api/v1/auth.py]) and of the admin point
    adjustment ([app/api/admin/users.py]).

    The database is a record of tables (lists of rows).  A request handler is
    a computation in a small state-and-exception monad over that record; the
    transaction boundary [commit]/[rollback] is [run_tx]: the final state is
    kept when the body returns, the initial state is restored when it
    raises.  Handlers that open [async with db.begin()] run through
    [begin_tx], which also sees whether the request's session already has a
    transaction. *)

From Stdlib Require Import ZArith List String Ascii Bool Lia QArith Permutation.
Import ListNotations.
Open Scope Z_scope.

(** ** Python and PostgreSQL values *)

(** Row identifiers are UUID values, i.e. 128-bit numbers. *)
Definition uuid := Z.

(** A Python [datetime]: microseconds since the epoch (UTC) and whether the
    value carries a [tzinfo].  [datetime.utcnow()] is naive; a value read
    from a [DateTime(timezone=True)] (timestamptz) column is aware. *)
Record pydatetime := mk_dt { dt_us : Z; dt_aware : bool }.

Definition utcnow (now : Z) : pydatetime := mk_dt now false.
Definition from_timestamptz (t : Z) : pydatetime := mk_dt t true.

(** [a - b] on datetimes: a [TypeError] when one is naive and the other
    aware ("can't subtract offset-naive and offset-aware datetimes"). *)
Definition py_dt_sub (a b : pydatetime) : option Z :=
  if Bool.eqb (dt_aware a) (dt_aware b) then Some (dt_us a - dt_us b) else None.

(** [a < b] on datetimes: likewise a [TypeError] across awareness. *)
Definition py_dt_lt (a b : pydatetime) : option bool :=
  if Bool.eqb (dt_aware a) (dt_aware b) then Some (dt_us a <? dt_us b) else None.

(** [int(cooldown_sec - delta.total_seconds())]: [int] truncates toward
    zero; [delta] is in microseconds. *)
Definition remaining_cooldown (cooldown_sec diff_us : Z) : Z :=
  Z.quot (cooldown_sec * 1000000 - diff_us) 1000000.

(** Decimal rendering of an [int] inside an f-string. *)
Fixpoint digits_N (fuel : nat) (n : N) (acc : string) : string :=
  let acc' := String (ascii_of_N (48 + N.modulo n 10)) acc in
  match fuel with
  | O => acc'
  | S f => if (n <? 10)%N then acc' else digits_N f (N.div n 10) acc'
  end.

Definition str_of_Z (z : Z) : string :=
  let n := Z.abs_N z in
  let s := digits_N (N.size_nat n) n EmptyString in
  if z <? 0 then String "-" s else s.

(** PostgreSQL's [uuid] input function, used when a text parameter is
    compared with a [uuid] column: 32 hexadecimal digits, upper or lower
    case, optionally enclosed in braces, with an optional hyphen after any
    group of four digits.  Anything else is rejected
    ([invalid input syntax for type uuid]). *)
Definition hex_val (c : ascii) : option Z :=
  let n := Z.of_N (N_of_ascii c) in
  if (48 <=? n) && (n <=? 57) then Some (n - 48)
  else if (97 <=? n) && (n <=? 102) then Some (n - 87)
  else if (65 <=? n) && (n <=? 70) then Some (n - 55)
  else None.

(** [ndig] counts the digits read so far; [acc] is their value. *)
Fixpoint uuid_digits (s : string) (ndig : nat) (acc : Z) : option Z :=
  match s with
  | EmptyString => if Nat.eqb ndig 32 then Some acc else None
  | String c rest =>
      if Ascii.eqb c "-" then
        match rest with
        | EmptyString => None
        | String c' _ =>
            if negb (Ascii.eqb c' "-") && Nat.eqb (Nat.modulo ndig 4) 0
               && negb (Nat.eqb ndig 0) && Nat.ltb ndig 32
            then uuid_digits rest ndig acc else None
        end
      else match hex_val c with
           | Some v => if Nat.ltb ndig 32 then uuid_digits rest (S ndig) (acc * 16 + v)
                       else None
           | None => None
           end
  end.

Definition strip_braces (s : string) : option string :=
  match s with
  | String "{" rest =>
      let n := String.length rest in
      match String.get (n - 1) rest with
      | Some "}"%char => if Nat.ltb 0 n then Some (String.substring 0 (n - 1) rest) else None
      | _ => None
      end
  | _ => Some s
  end.

Definition pg_uuid_in (s : string) : option uuid :=
  match strip_braces s with
  | Some body => uuid_digits body 0 0
  | None => None
  end.

Example pg_uuid_in_canonical :
  pg_uuid_in "00000000-0000-0000-0000-00000000002a" = Some 42.
Proof. reflexivity. Qed.

Example pg_uuid_in_rejects : pg_uuid_in "abc" = None.
Proof. reflexivity. Qed.

Example str_of_Z_ex : str_of_Z 1205 = "1205"%string /\ str_of_Z (-7) = "-7"%string.
Proof. split; reflexivity. Qed.

(** ** Tables (app/models) *)

(** [User.profile] is a JSONB dict or NULL.  Only its ["points"] entry is
    read or written by the handlers; [pd_other] records whether the dict
    has other keys (which decides its truthiness when ["points"] is
    absent). *)
Record pdict := mk_pdict { pd_points : option Z; pd_other : bool }.
Definition profile := option pdict.

(** Python truthiness of [user.profile]: NULL and [{}] are falsy. *)
Definition truthy_profile (p : profile) : bool :=
  match p with
  | Some pd => match pd_points pd with Some _ => true | None => pd_other pd end
  | None => false
  end.

Record user := mk_user {
  u_id : uuid; u_login_id : string; u_email : option string;
  u_nickname : option string; u_profile : profile }.

(** [user.profile.get("points", 0) if user.profile else 0] *)
Definition cached_points (p : profile) : Z :=
  if truthy_profile p then
    match p with Some pd => match pd_points pd with Some n => n | None => 0 end | None => 0 end
  else 0.

(** [updated_profile = profile.copy() (or {}); updated_profile["points"] = n] *)
Definition with_points (p : profile) (n : Z) : profile :=
  match p with
  | Some pd => Some (mk_pdict (Some n) (pd_other pd))
  | None => Some (mk_pdict (Some n) false)
  end.

Record nfc_tag := mk_tag {
  t_id : uuid; t_udid : string; t_name : string; t_active : bool;
  t_cooldown : Z; t_use_limit : option Z; t_reward : Z }.

(** [StageHint] (app/models/stage.py): the columns the handlers read.  The
    model has no [location] or [radius_m] attribute. *)
Record stage_hint := mk_hint {
  h_id : uuid; h_stage : uuid; h_order : Z; h_nfc : option uuid; h_reward : Z }.

(** [nfc_scan_logs]: [scanned_at] is timestamptz, [hint_id] a uuid
    column referencing [stage_hints]. *)
Record scan_log := mk_log {
  l_user : uuid; l_nfc : option uuid; l_at : Z; l_allowed : bool;
  l_reason : option string; l_hint : option uuid }.

Record ledger_row := mk_ledger {
  r_user : uuid; r_delta : Z; r_note : string; r_content : option uuid;
  r_stage : option uuid; r_store_reward : option uuid }.

Record stage := mk_stage { s_id : uuid; s_content : uuid; s_parent : option uuid }.

Record content := mk_content {
  c_id : uuid; c_open : bool; c_always_on : bool; c_start : option Z;
  c_end : option Z; c_has_next : bool; c_next : option uuid }.

Record stage_progress := mk_sp {
  sp_user : uuid; sp_stage : uuid; sp_status : string; sp_unlock_at : option Z;
  sp_cleared_at : option Z; sp_nfc_count : Z; sp_best : option Z }.

Record content_progress := mk_cp {
  cp_user : uuid; cp_content : uuid; cp_status : string;
  cp_joined_at : option Z; cp_cleared_at : option Z }.

Record store_reward := mk_sr {
  sr_id : uuid; sr_store : uuid; sr_name : string; sr_active : bool;
  sr_price : Z; sr_stock : option Z }.

Record auth_identity := mk_ai { ai_user : uuid; ai_provider : string; ai_hash : string }.

Record db := mk_db {
  users : list user; tags : list nfc_tag; hints : list stage_hint;
  scan_logs : list scan_log; ledger : list ledger_row; stages : list stage;
  contents : list content; stage_prog : list stage_progress;
  content_prog : list content_progress; store_rewards : list store_reward;
  identities : list auth_identity }.

(** ** Exceptions and the transaction monad *)

Inductive exc :=
| HTTPException (code : Z) (detail : string)
| TypeError                  (* naive/aware datetime arithmetic *)
| DataError                  (* text that is not a uuid, compared with a uuid column *)
| MultipleResultsFound       (* [scalar_one_or_none] on two or more rows *)
| IntegrityError             (* a row violating a constraint at flush *)
| AttributeError             (* attribute access on [None], or an attribute the object lacks *)
| InvalidRequestError        (* [session.begin()] on a session already in a transaction *)
| InvalidKeyword (kw cls : string)
    (* the [TypeError] of a mapped class's constructor:
       [kw] "is an invalid keyword argument for" [cls] *)
| Wrapped500 (prefix : string) (e : exc).
    (* [HTTPException(status_code=500, detail=prefix + str(e))] raised by an
       [except Exception as e] clause; the original exception is kept as it is *)

Inductive result (A : Type) := Ok (a : A) | Err (e : exc).
Arguments Ok {A} a.
Arguments Err {A} e.

Definition tx (A : Type) := db -> (db * A) + exc.

Definition ret {A} (a : A) : tx A := fun s => inl (s, a).
Definition bind {A B} (m : tx A) (k : A -> tx B) : tx B :=
  fun s => match m s with inl (s', a) => k a s' | inr e => inr e end.
Definition raise {A} (e : exc) : tx A := fun _ => inr e.
Definition get_db : tx db := fun s => inl (s, s).
Definition put_db (s : db) : tx unit := fun _ => inl (s, tt).
Definition modify_db (f : db -> db) : tx unit := fun s => inl (f s, tt).

Notation "x <- m ;; k" := (bind m (fun x => k))
  (at level 61, m at next level, right associativity).
Notation "m ;;; k" := (bind m (fun _ => k))
  (at level 61, right associativity).

(** The transaction boundary: commit what the body wrote if it returns,
    roll everything back if it raises. *)
Definition run_tx {A} (m : tx A) (s : db) : db * result A :=
  match m s with
  | inl (s', a) => (s', Ok a)
  | inr e => (s, Err e)
  end.

(** The request's [AsyncSession]: the database and whether the session
    already has a transaction.  SQLAlchemy 2.0 begins one implicitly
    (autobegin) at the first [execute]. *)
Record session := mk_session { ss_db : db; ss_begun : bool }.

(** [async with db.begin(): ...]: [begin()] raises when the session already
    has a transaction; otherwise the block runs in a new transaction, which
    is committed when the block ends and rolled back when it raises. *)
Definition begin_tx {A} (s : session) (m : tx A) : session * result A :=
  if ss_begun s then (s, Err InvalidRequestError)
  else let (d', r) := run_tx m (ss_db s) in (mk_session d' false, r).

(** [try: ... except Exception as e: (if isinstance(e, HTTPException): raise e);
    raise HTTPException(status_code=500, detail=f"{prefix}{e}")] *)
Definition reraise_500 {A} (prefix : string) (m : tx A) : tx A :=
  fun s => match m s with
           | inr (HTTPException c msg) => inr (HTTPException c msg)
           | inr e => inr (Wrapped500 prefix e)
           | inl r => inl r
           end.

(** [result.scalar_one_or_none()] *)
Definition scalar_one_or_none {A} (rows : list A) : tx (option A) :=
  match rows with
  | [] => ret None
  | [x] => ret (Some x)
  | _ => raise MultipleResultsFound
  end.

(** Binding a text parameter against a uuid column. *)
Definition cast_uuid (s : string) : tx uuid :=
  match pg_uuid_in s with Some u => ret u | None => raise DataError end.

(** Table updates. *)
Definition set_users (f : list user -> list user) (d : db) : db :=
  mk_db (f (users d)) (tags d) (hints d) (scan_logs d) (ledger d) (stages d)
        (contents d) (stage_prog d) (content_prog d) (store_rewards d) (identities d).
Definition add_log (l : scan_log) (d : db) : db :=
  mk_db (users d) (tags d) (hints d) (scan_logs d ++ [l]) (ledger d) (stages d)
        (contents d) (stage_prog d) (content_prog d) (store_rewards d) (identities d).
Definition add_ledger (r : ledger_row) (d : db) : db :=
  mk_db (users d) (tags d) (hints d) (scan_logs d) (ledger d ++ [r]) (stages d)
        (contents d) (stage_prog d) (content_prog d) (store_rewards d) (identities d).
Definition set_stage_prog (f : list stage_progress -> list stage_progress) (d : db) : db :=
  mk_db (users d) (tags d) (hints d) (scan_logs d) (ledger d) (stages d)
        (contents d) (f (stage_prog d)) (content_prog d) (store_rewards d) (identities d).
Definition set_content_prog (f : list content_progress -> list content_progress) (d : db) : db :=
  mk_db (users d) (tags d) (hints d) (scan_logs d) (ledger d) (stages d)
        (contents d) (stage_prog d) (f (content_prog d)) (store_rewards d) (identities d).
Definition set_store_rewards (f : list store_reward -> list store_reward) (d : db) : db :=
  mk_db (users d) (tags d) (hints d) (scan_logs d) (ledger d) (stages d)
        (contents d) (stage_prog d) (content_prog d) (f (store_rewards d)) (identities d).
Definition set_identities (f : list auth_identity -> list auth_identity) (d : db) : db :=
  mk_db (users d) (tags d) (hints d) (scan_logs d) (ledger d) (stages d)
        (contents d) (stage_prog d) (content_prog d) (store_rewards d) (f (identities d)).

(** [update(User).where(User.id == uid).values(profile=p)] *)
Definition update_profile (uid : uuid) (p : profile) (d : db) : db :=
  set_users (map (fun u => if u_id u =? uid
                           then mk_user (u_id u) (u_login_id u) (u_email u) (u_nickname u) p
                           else u)) d.

(** [db.get(User, uid)] *)
Definition get_user (uid : uuid) : tx (option user) :=
  d <- get_db ;; scalar_one_or_none (filter (fun u => u_id u =? uid) (users d)).

(** The ledger balance [SUM(coin_delta) WHERE user_id = uid]. *)
Definition ledger_sum (rows : list ledger_row) (uid : uuid) : Z :=
  fold_right (fun r acc => if r_user r =? uid then r_delta r + acc else acc) 0 rows.

(** The cached balance of [uid] (0 for a missing user). *)
Definition cached_balance (d : db) (uid : uuid) : Z :=
  match find (fun u => u_id u =? uid) (users d) with
  | Some u => cached_points (u_profile u)
  | None => 0
  end.

Definition opt_eqb (o : option uuid) (u : uuid) : bool :=
  match o with Some v => v =? u | None => false end.

(** Python truthiness of an optional [str]: [None] and [""] are falsy. *)
Definition truthy_str (o : option string) : bool :=
  match o with Some s => negb (String.eqb s "") | None => false end.

Open Scope string_scope.
Open Scope Z_scope.

(** ** NFC scan gate ([scan_nfc], app/api/v1/nfc.py) *)

Record scan_request := mk_scan_req { req_udid : string; req_hint_id : option string }.

Record next_info := mk_next { next_type : string; next_id : uuid }.

Record scan_response := mk_scan_resp {
  resp_allowed : bool; resp_reason : option string; resp_point_reward : Z;
  resp_cooldown_sec : Z; resp_hint : option uuid; resp_next : option next_info }.

(** [NFCScanResponse(allowed=False, reason=...)] with the other fields at
    their defaults, and the [cooldown_sec] variant. *)
Definition denied (reason : string) : scan_response :=
  mk_scan_resp false (Some reason) 0 0 None None.
Definition denied_cooldown (reason : string) (remaining : Z) : scan_response :=
  mk_scan_resp false (Some reason) 0 remaining None None.

(** The value written to [NFCScanLog.hint_id]: nothing, the client's text,
    or [str(hint.id)] of a resolved hint. *)
Inductive hint_param := HNone | HText (s : string) | HUuid (u : uuid).

(** [db.add(NFCScanLog(...))]: at flush the [hint_id] text is cast to uuid
    and must reference a [stage_hints] row (foreign key). *)
Definition insert_log (uid : uuid) (nfc : option uuid) (now : Z) (allowed : bool)
    (reason : option string) (hp : hint_param) : tx unit :=
  hid <- match hp with
         | HNone => ret None
         | HUuid u => ret (Some u)
         | HText s => u <- cast_uuid s ;; ret (Some u)
         end ;;
  d <- get_db ;;
  match hid with
  | Some u => if existsb (fun h => h_id h =? u) (hints d)
              then modify_db (add_log (mk_log uid nfc now allowed reason hid))
              else raise IntegrityError
  | None => modify_db (add_log (mk_log uid nfc now allowed reason None))
  end.

(** Allowed scans of tag [tid] by [uid]. *)
Definition allowed_scans (logs : list scan_log) (uid tid : uuid) : list scan_log :=
  filter (fun l => (l_user l =? uid) && opt_eqb (l_nfc l) tid && l_allowed l) logs.

(** [.order_by(NFCScanLog.scanned_at.desc()).limit(1)] *)
Fixpoint latest (ls : list scan_log) : option scan_log :=
  match ls with
  | [] => None
  | l :: r => match latest r with
              | None => Some l
              | Some m => if l_at m <=? l_at l then Some l else Some m
              end
  end.

(** The cooldown query.  The threshold [datetime.utcnow() - cooldown] is
    compared in SQL with [scanned_at]; the application server's clock is
    taken to be UTC, so the comparison is on instants. *)
Definition recent_allowed_scan (logs : list scan_log) (uid tid threshold : Z) : option scan_log :=
  latest (filter (fun l => threshold <? l_at l) (allowed_scans logs uid tid)).

(** [StageHint] rows bound to a tag / with an id. *)
Definition hints_of_tag (hs : list stage_hint) (tid : uuid) : list stage_hint :=
  filter (fun h => opt_eqb (h_nfc h) tid) hs.
Definition hints_with_id (hs : list stage_hint) (hid : uuid) : list stage_hint :=
  filter (fun h => h_id h =? hid) hs.

(** Grant [delta] coins: ledger row plus cached balance, as in steps 7 of
    [scan_nfc] and 5 of [verify_location]. *)
Definition grant_points (missing : exc) (uid : uuid) (delta : Z) (note : string) : tx unit :=
  modify_db (add_ledger (mk_ledger uid delta note None None None)) ;;;
  ou <- get_user uid ;;
  match ou with
  | None => raise missing
  | Some u =>
      modify_db (update_profile uid (with_points (u_profile u) (cached_points (u_profile u) + delta)))
  end.

(** Step 8 of [scan_nfc] / step 6 of [verify_location]. *)
Definition bump_stage_progress (uid st : uuid) : tx unit :=
  d <- get_db ;;
  osp <- scalar_one_or_none
           (filter (fun p => (sp_user p =? uid) && (sp_stage p =? st)) (stage_prog d)) ;;
  match osp with
  | None => modify_db (set_stage_prog (fun ps => (ps ++ [mk_sp uid st "in_progress" None None 1 None])%list))
  | Some _ =>
      modify_db (set_stage_prog (map (fun p =>
        if (sp_user p =? uid) && (sp_stage p =? st)
        then mk_sp (sp_user p) (sp_stage p) (sp_status p) (sp_unlock_at p)
                   (sp_cleared_at p) (sp_nfc_count p + 1) (sp_best p)
        else p)))
  end.

(** The body of [async with db.begin():] in [scan_nfc].  It returns either
    the response of an early [return] (which still commits) or the tag and
    the resolved hint of the success path. *)
Definition scan_body (uid : uuid) (req : scan_request) (now : Z)
    : tx (scan_response + (nfc_tag * option stage_hint)) :=
  d <- get_db ;;
  ot <- scalar_one_or_none (filter (fun t => String.eqb (t_udid t) (req_udid req)) (tags d)) ;;
  match ot with
  | None =>
      insert_log uid None now false (Some "NFC tag not found") HNone ;;;
      ret (inl (denied "NFC tag not found"))
  | Some t =>
  if negb (t_active t) then
      insert_log uid (Some (t_id t)) now false (Some "NFC tag is not active") HNone ;;;
      ret (inl (denied "NFC tag is not active"))
  else
  let cooldown_check : tx (option scan_response) :=
    if 0 <? t_cooldown t then
      d <- get_db ;;
      match recent_allowed_scan (scan_logs d) uid (t_id t) (now - t_cooldown t * 1000000) with
      | None => ret None
      | Some recent =>
          match py_dt_sub (utcnow now) (from_timestamptz (l_at recent)) with
          | None => raise TypeError
          | Some diff =>
              let rem := remaining_cooldown (t_cooldown t) diff in
              insert_log uid (Some (t_id t)) now false
                (Some ("Cooldown active (" ++ str_of_Z rem ++ "s remaining)")) HNone ;;;
              ret (Some (denied_cooldown
                           ("Cooldown active. Please wait " ++ str_of_Z rem ++ " seconds.") rem))
          end
      end
    else ret None in
  ocd <- cooldown_check ;;
  match ocd with
  | Some r => ret (inl r)
  | None =>
  d <- get_db ;;
  let limit_hit :=
    match t_use_limit t with
    | Some n => n <=? Z.of_nat (List.length (allowed_scans (scan_logs d) uid (t_id t)))
    | None => false
    end in
  if limit_hit then
      insert_log uid (Some (t_id t)) now false (Some "Usage limit reached") HNone ;;;
      ret (inl (denied "Usage limit reached for this NFC tag"))
  else
  (* 5. hint resolution *)
  resolved <- (if negb (truthy_str (req_hint_id req)) then
                 oh <- scalar_one_or_none (hints_of_tag (hints d) (t_id t)) ;;
                 match oh with
                 | Some h => ret (Some h, HUuid (h_id h))
                 | None => ret (None, match req_hint_id req with
                                      | Some s => HText s | None => HNone end)
                 end
               else
                 match req_hint_id req with
                 | Some s => hid <- cast_uuid s ;;
                             oh <- scalar_one_or_none (hints_with_id (hints d) hid) ;;
                             ret (oh, HText s)
                 | None => ret (None, HNone)
                 end) ;;
  let (oh, hp) := resolved in
  (* 6. allowed log row *)
  insert_log uid (Some (t_id t)) now true None hp ;;;
  (* 7. point reward *)
  (if 0 <? t_reward t
   then grant_points (HTTPException 404 "User not found during point update")
                     uid (t_reward t) ("NFC scan: " ++ t_name t)
   else ret tt) ;;;
  (* 8. stage progress *)
  (match oh with Some h => bump_stage_progress uid (h_stage h) | None => ret tt end) ;;;
  ret (inr (t, oh))
  end
  end.

(** The advisory [next]: the hint of the same stage with the smallest
    larger [order_no], else the stage itself. *)
Definition next_hint (hs : list stage_hint) (h : stage_hint) : option stage_hint :=
  fold_left (fun acc x =>
    if (h_stage x =? h_stage h) && (h_order h <? h_order x) then
      match acc with
      | Some y => if h_order x <? h_order y then Some x else acc
      | None => Some x
      end
    else acc) hs None.

Definition next_of (d : db) (h : stage_hint) : next_info :=
  match next_hint (hints d) h with
  | Some nh => mk_next "hint" (h_id nh)
  | None => mk_next "stage" (h_stage h)
  end.

(** The handler on the session [s] it is given. *)
Definition scan_nfc (s : session) (uid : uuid) (req : scan_request) (now : Z)
    : session * result scan_response :=
  let (s', r) := begin_tx s (scan_body uid req now) in
  match r with
  | Ok (inl resp) => (s', Ok resp)
  | Ok (inr (t, oh)) =>
      (s', Ok (mk_scan_resp true None (t_reward t) (t_cooldown t)
                 (option_map h_id oh) (option_map (next_of (ss_db s')) oh)))
  | Err e => (s', Err e)
  end.

(** ** Location verification gate ([verify_location], app/api/v1/nfc.py) *)

(** [str(uuid)]: 32 lower-case hex digits grouped 8-4-4-4-12. *)
Definition hex_char (n : Z) : ascii :=
  match String.get (Z.to_nat n) "0123456789abcdef" with Some c => c | None => "0"%char end.

Fixpoint hex_digits (k : nat) (n : Z) (acc : string) : string :=
  match k with
  | O => acc
  | S k' => hex_digits k' (n / 16) (String (hex_char (n mod 16)) acc)
  end.

Definition uuid_str (u : uuid) : string :=
  let s := hex_digits 32 u "" in
  String.substring 0 8 s ++ "-" ++ String.substring 8 4 s ++ "-" ++
  String.substring 12 4 s ++ "-" ++ String.substring 16 4 s ++ "-" ++
  String.substring 20 12 s.

Example uuid_str_roundtrip : pg_uuid_in (uuid_str 42) = Some 42.
Proof. reflexivity. Qed.

Record location_request := mk_loc_req { lr_hint_id : string; lr_latitude : Q; lr_longitude : Q }.

Record location_response := mk_loc_resp {
  lresp_allowed : bool; lresp_reason : option string; lresp_point_reward : Z;
  lresp_next : option next_info }.

Definition loc_denied (reason : string) : location_response :=
  mk_loc_resp false (Some reason) 0 None.

(** The body of [async with db.begin():] in [verify_location].  Once the
    hint is found, step 2 reads [hint.location], an attribute [StageHint]
    does not have; nothing after it is reached. *)
Definition verify_body (uid : uuid) (req : location_request) : tx location_response :=
  hid <- cast_uuid (lr_hint_id req) ;;
  d <- get_db ;;
  oh <- scalar_one_or_none (hints_with_id (hints d) hid) ;;
  match oh with
  | None => ret (loc_denied "Hint not found")
  | Some _ => raise AttributeError
  end.

Definition verify_location (s : session) (uid : uuid) (req : location_request)
    : session * result location_response :=
  begin_tx s (verify_body uid req).

(** ** Stage clear ([clear_stage], app/api/v1/progress.py) *)

Record clear_response := mk_clear_resp {
  cr_cleared : bool; cr_rewards : list (Z * string); cr_content_cleared : bool;
  cr_next_content : option uuid }.

(** A Python [set] built from a list of ids. *)
Fixpoint dedup (l : list uuid) : list uuid :=
  match l with
  | [] => []
  | x :: r => if existsb (Z.eqb x) r then dedup r else x :: dedup r
  end.

(** [set.add(x)] *)
Definition set_add (x : uuid) (l : list uuid) : list uuid :=
  if existsb (Z.eqb x) l then l else x :: l.

Definition is_none {A} (o : option A) : bool := match o with None => true | Some _ => false end.

(** Ledger rows of [uid] tagged with stage [sid]. *)
Definition stage_rewards (rows : list ledger_row) (uid sid : uuid) : list ledger_row :=
  filter (fun r => (r_user r =? uid) && opt_eqb (r_stage r) sid) rows.

Definition progress_of (ps : list stage_progress) (uid sid : uuid) : list stage_progress :=
  filter (fun p => (sp_user p =? uid) && (sp_stage p =? sid)) ps.

(** [best_time_sec] is kept only if strictly smaller. *)
Definition improve_best (req : option Z) (cur : option Z) : option Z :=
  match req with
  | None => cur
  | Some b => match cur with
              | None => Some b
              | Some c => if b <? c then Some b else cur
              end
  end.

(** Top-level stages of content [cid]: [parent_stage_id IS NULL]. *)
Definition top_level_ids (ss : list stage) (cid : uuid) : list uuid :=
  map s_id (filter (fun s => (s_content s =? cid) && is_none (s_parent s)) ss).

Definition clear_body (uid sid : uuid) (best : option Z) (now : Z) : tx clear_response :=
  d <- get_db ;;
  ost <- scalar_one_or_none (filter (fun s => s_id s =? sid) (stages d)) ;;
  match ost with
  | None => raise (HTTPException 404 "Stage not found")
  | Some st =>
  oc <- scalar_one_or_none (filter (fun c => c_id c =? s_content st) (contents d)) ;;
  match oc with
  | None => raise (HTTPException 404 "Content not found")
  | Some c =>
  osp <- scalar_one_or_none (progress_of (stage_prog d) uid sid) ;;
  let already := match osp with Some p => String.eqb (sp_status p) "cleared" | None => false end in
  if already then
    ret (mk_clear_resp true (map (fun r => (r_delta r, r_note r)) (stage_rewards (ledger d) uid sid))
                       false None)
  else
  (match osp with
   | None =>
       modify_db (set_stage_prog (fun ps =>
         (ps ++ [mk_sp uid sid "cleared" (Some now) (Some now) 0 (improve_best best None)])%list))
   | Some _ =>
       modify_db (set_stage_prog (map (fun p =>
         if (sp_user p =? uid) && (sp_stage p =? sid)
         then mk_sp (sp_user p) (sp_stage p) "cleared" (sp_unlock_at p) (Some now)
                    (sp_nfc_count p) (improve_best best (sp_best p))
         else p)))
   end) ;;;
  d1 <- get_db ;;
  let all_stage_ids := top_level_ids (stages d1) (s_content st) in
  let cleared_db := dedup (map sp_stage (filter (fun p =>
        (sp_user p =? uid) && existsb (Z.eqb (sp_stage p)) all_stage_ids
        && negb (sp_stage p =? s_id st) && String.eqb (sp_status p) "cleared") (stage_prog d1))) in
  let cleared_stage_ids := set_add (s_id st) cleared_db in
  if Nat.eqb (List.length cleared_stage_ids) (List.length all_stage_ids) then
    ocp <- scalar_one_or_none (filter (fun p => (cp_user p =? uid) && (cp_content p =? s_content st))
                                      (content_prog d1)) ;;
    (match ocp with
     | Some _ =>
         modify_db (set_content_prog (map (fun p =>
           if (cp_user p =? uid) && (cp_content p =? s_content st)
           then mk_cp (cp_user p) (cp_content p) "cleared" (cp_joined_at p) (Some now)
           else p)))
     | None => ret tt
     end) ;;;
    ret (mk_clear_resp true [] true (if c_has_next c then c_next c else None))
  else ret (mk_clear_resp true [] false None)
  end
  end.

(** The handler commits at its end; an exception leaves the session
    uncommitted, so nothing is written. *)
Definition clear_stage (d : db) (uid sid : uuid) (best : option Z) (now : Z)
    : db * result clear_response :=
  run_tx (clear_body uid sid best now) d.

(** ** Content join ([join_content], app/api/v1/contents.py) *)

Record join_response := mk_join_resp { jr_joined : bool; jr_status : string }.

Definition join_body (uid cid : uuid) (now_us : Z) : tx join_response :=
  d <- get_db ;;
  oc <- scalar_one_or_none (filter (fun c => c_id c =? cid) (contents d)) ;;
  match oc with
  | None => raise (HTTPException 404 "Content not found")
  | Some c =>
  if negb (c_open c) then raise (HTTPException 400 "Content is not open") else
  let now := utcnow now_us in
  (* [content.start_at > now] and [content.end_at < now]: aware column
     values against a naive [utcnow()] *)
  (if negb (c_always_on c) then
     (match c_start c with
      | Some s => match py_dt_lt now (from_timestamptz s) with
                  | None => raise TypeError
                  | Some true => raise (HTTPException 400 "Content has not started yet")
                  | Some false => ret tt
                  end
      | None => ret tt
      end) ;;;
     (match c_end c with
      | Some e => match py_dt_lt (from_timestamptz e) now with
                  | None => raise TypeError
                  | Some true => raise (HTTPException 400 "Content has ended")
                  | Some false => ret tt
                  end
      | None => ret tt
      end)
   else ret tt) ;;;
  op <- scalar_one_or_none (filter (fun p => (cp_user p =? uid) && (cp_content p =? cid)) (content_prog d)) ;;
  match op with
  | Some p => ret (mk_join_resp true (cp_status p))
  | None =>
      modify_db (set_content_prog (fun ps =>
        (ps ++ [mk_cp uid cid "in_progress" (Some now_us) None])%list)) ;;;
      ret (mk_join_resp true "in_progress")
  end
  end.

Definition join_content (d : db) (uid cid : uuid) (now_us : Z) : db * result join_response :=
  run_tx (join_body uid cid now_us) d.

(** ** The ORM-mapped [User.profile] attribute

    [User.profile] is a plain [JSONB] column (no [MutableDict]).  Inside a
    session the attribute holds a Python object: [None] or a reference to
    a dict in a heap, so that a dict mutated in place is seen through every
    name bound to it.  On the first assignment to the attribute SQLAlchemy
    records the previous value ([committed_state]); at flush it emits an
    UPDATE only if such an entry exists and the current value is not equal
    ([==]) to the recorded one, both read in the current heap. *)

Inductive pyref := PyNone | PyDict (r : nat).

Record orm_user := mk_orm { ou_attr : pyref; ou_committed : option pyref; ou_heap : list pdict }.

Definition deref (h : list pdict) (v : pyref) : profile :=
  match v with PyNone => None | PyDict r => nth_error h r end.

(** The attribute as loaded from the row. *)
Definition orm_load (p : profile) : orm_user :=
  match p with None => mk_orm PyNone None [] | Some pd => mk_orm (PyDict 0) None [pd] end.

(** [{}]: a fresh dict. *)
Definition orm_new_dict (o : orm_user) : orm_user * pyref :=
  (mk_orm (ou_attr o) (ou_committed o) (ou_heap o ++ [mk_pdict None false])%list,
   PyDict (List.length (ou_heap o))).

Fixpoint list_set {A} (l : list A) (i : nat) (x : A) : list A :=
  match l, i with
  | [], _ => []
  | _ :: r, O => x :: r
  | y :: r, S i' => y :: list_set r i' x
  end.

(** [d['points'] = n] on the dict [v] (in place). *)
Definition orm_setitem_points (o : orm_user) (v : pyref) (n : Z) : orm_user :=
  match v with
  | PyDict r =>
      match nth_error (ou_heap o) r with
      | Some pd => mk_orm (ou_attr o) (ou_committed o) (list_set (ou_heap o) r (mk_pdict (Some n) (pd_other pd)))
      | None => o
      end
  | PyNone => o
  end.

(** [user.profile = v] *)
Definition orm_setattr (o : orm_user) (v : pyref) : orm_user :=
  mk_orm v (match ou_committed o with Some c => Some c | None => Some (ou_attr o) end) (ou_heap o).

Definition pdict_eqb (a b : pdict) : bool :=
  match pd_points a, pd_points b with
  | Some x, Some y => (x =? y) && Bool.eqb (pd_other a) (pd_other b)
  | None, None => Bool.eqb (pd_other a) (pd_other b)
  | _, _ => false
  end.

Definition profile_eqb (a b : profile) : bool :=
  match a, b with
  | Some x, Some y => pdict_eqb x y
  | None, None => true
  | _, _ => false
  end.

(** The UPDATE the flush emits for the attribute, if any. *)
Definition orm_flush (o : orm_user) : option profile :=
  match ou_committed o with
  | None => None
  | Some prev =>
      let cur := deref (ou_heap o) (ou_attr o) in
      if profile_eqb cur (deref (ou_heap o) prev) then None else Some cur
  end.

Definition flush_profile (uid : uuid) (o : orm_user) : tx unit :=
  match orm_flush o with
  | Some p => modify_db (update_profile uid p)
  | None => ret tt
  end.

(** ** Reward redemption *)

Record redeem_response := mk_redeem_resp { rd_ledger_id : Z; rd_remaining : Z }.

Definition find_reward (d : db) (rid : uuid) : list store_reward :=
  filter (fun r => sr_id r =? rid) (store_rewards d).

(** [reward.stock_qty -= 1] *)
Definition decrement_stock (rid : uuid) : db -> db :=
  set_store_rewards (map (fun r =>
    if sr_id r =? rid
    then mk_sr (sr_id r) (sr_store r) (sr_name r) (sr_active r) (sr_price r)
               (option_map (fun q => q - 1) (sr_stock r))
    else r)).

(** [consume_reward] (app/api/v1/progress.py, [POST /progress/rewards/consume]):
    the body of its [try]; the balance is the ledger sum.  Step 6 calls
    [RewardLedger(user_id=..., store_id=..., store_reward_id=..., ...)], and
    [rewards_ledger] has no [store_id] column: the constructor raises
    [TypeError] on that keyword, and nothing after it is reached. *)
Definition consume_body (uid rid : uuid) : tx redeem_response :=
  d <- get_db ;;
  ori <- scalar_one_or_none (find_reward d rid) ;;
  match ori with
  | None => raise (HTTPException 404 "Reward item not found")
  | Some ri =>
  if negb (sr_active ri) then raise (HTTPException 400 "Reward item is not active") else
  (match sr_stock ri with
   | Some q => if q <=? 0 then raise (HTTPException 400 "Item out of stock") else ret tt
   | None => ret tt
   end) ;;;
  let current_points := ledger_sum (ledger d) uid in
  if current_points <? sr_price ri then
    raise (HTTPException 400 ("Not enough points. Required: " ++ str_of_Z (sr_price ri)
                              ++ ", Available: " ++ str_of_Z current_points))
  else
  (match sr_stock ri with Some _ => modify_db (decrement_stock rid) | None => ret tt end) ;;;
  raise (InvalidKeyword "store_id" "RewardLedger")
  end.

(** [async with db.begin(): try: ... except Exception as e: ...] *)
Definition consume_reward (s : session) (uid rid : uuid) : session * result redeem_response :=
  begin_tx s (reraise_500 "An error occurred during transaction: " (consume_body uid rid)).

(** [redeem_reward] (app/api/v1/rewards.py, [POST /rewards/redeem]): the
    body of its [try]; the balance is the cached [profile.points].  The
    stock is decremented before the balance check, and the cache is
    written with an explicit [update(User)] statement.  The ledger row is
    then built with [RewardLedger(..., store_reward_id=...)], a keyword
    the model does not have: the constructor raises [TypeError]. *)
Definition redeem_body (uid rid : uuid) : tx redeem_response :=
  d <- get_db ;;
  orw <- scalar_one_or_none (find_reward d rid) ;;
  match orw with
  | None => raise (HTTPException 404 "상품을 찾을 수 없습니다.")
  | Some rw =>
  if negb (sr_active rw) then raise (HTTPException 400 "현재 교환 불가능한 상품입니다.") else
  (match sr_stock rw with
   | Some q => if q <=? 0 then raise (HTTPException 400 "상품 재고가 소진되었습니다.")
               else modify_db (decrement_stock rid)
   | None => ret tt
   end) ;;;
  ou <- get_user uid ;;
  match ou with
  | None => raise (HTTPException 404 "사용자 정보를 찾을 수 없습니다.")
  | Some u =>
  let user_points := cached_points (u_profile u) in
  if user_points <? sr_price rw then
    raise (HTTPException 400 ("포인트가 부족합니다. (보유: " ++ str_of_Z user_points
                              ++ "P, 필요: " ++ str_of_Z (sr_price rw) ++ "P)"))
  else
  let new_points := user_points - sr_price rw in
  modify_db (update_profile uid (with_points (u_profile u) new_points)) ;;;
  raise (InvalidKeyword "store_reward_id" "RewardLedger")
  end
  end.

(** [try: ... await db.commit() except Exception as e: await db.rollback(); ...] *)
Definition redeem_reward (d : db) (uid rid : uuid) : db * result redeem_response :=
  run_tx (reraise_500 "An error occurred: " (redeem_body uid rid)) d.

(** ** Admin point adjustment ([adjust_user_points], app/api/admin/users.py) *)

Definition adjust_body (user_id : uuid) (coin_delta : Z) (note : string) : tx ledger_row :=
  d <- get_db ;;
  ou <- scalar_one_or_none (filter (fun u => u_id u =? user_id) (users d)) ;;
  match ou with
  | None => raise (HTTPException 404 "User not found")
  | Some u =>
  let entry := mk_ledger (u_id u) coin_delta note None None None in
  modify_db (add_ledger entry) ;;;
  let new_points := cached_points (u_profile u) + coin_delta in
  let o := orm_load (u_profile u) in
  (* if user.profile is None: user.profile = {} *)
  let o := match ou_attr o with
           | PyNone => let (o', r) := orm_new_dict o in orm_setattr o' r
           | PyDict _ => o
           end in
  (* user.profile['points'] = new_points *)
  let o := orm_setitem_points o (ou_attr o) new_points in
  flush_profile (u_id u) o ;;;
  ret entry
  end.

Definition adjust_user_points (d : db) (user_id : uuid) (coin_delta : Z) (note : string)
    : db * result ledger_row :=
  run_tx (adjust_body user_id coin_delta note) d.

(** ** Requests through the router (app/api/deps.py)

    [get_current_user] and the handler both declare [Depends(get_db)];
    FastAPI resolves a dependency once per request, so they share one
    session.  [get_current_user] runs [db.execute(select(User)...)] on it,
    which begins the session's transaction.  When the request ends,
    [get_async_db] closes the session, rolling back what was not
    committed.  The token is taken as valid, with [user_id = uid]. *)

Section Routes.

(** [User.status]; [user.is_active] is [status == 'active']. *)
Variable user_status : user -> string.

Definition get_current_user (s : session) (uid : uuid) : session * result user :=
  let s' := mk_session (ss_db s) true in
  match filter (fun u => u_id u =? uid) (users (ss_db s)) with
  | [] => (s', Err (HTTPException 401 "User not found"))
  | [u] => if String.eqb (user_status u) "active" then (s', Ok u)
           else (s', Err (HTTPException 401 ("User account is " ++ user_status u)))
  | _ => (s', Err MultipleResultsFound)
  end.

(** A request on a fresh session: the current user, then the handler. *)
Definition with_current_user {A} (h : session -> user -> session * result A) (d : db) (uid : uuid)
    : db * result A :=
  let (s1, ru) := get_current_user (mk_session d false) uid in
  match ru with
  | Err e => (ss_db s1, Err e)
  | Ok u => let (s2, r) := h s1 u in (ss_db s2, r)
  end.

Definition scan_nfc_route (d : db) (uid : uuid) (req : scan_request) (now : Z)
    : db * result scan_response :=
  with_current_user (fun s u => scan_nfc s (u_id u) req now) d uid.

Definition verify_location_route (d : db) (uid : uuid) (req : location_request)
    : db * result location_response :=
  with_current_user (fun s u => verify_location s (u_id u) req) d uid.

Definition consume_reward_route (d : db) (uid rid : uuid) : db * result redeem_response :=
  with_current_user (fun s u => consume_reward s (u_id u) rid) d uid.

(** [redeem_reward] commits or rolls back the session's transaction itself. *)
Definition redeem_reward_route (d : db) (uid rid : uuid) : db * result redeem_response :=
  with_current_user (fun s u => let (d', r) := redeem_reward (ss_db s) (u_id u) rid in
                                (mk_session d' false, r)) d uid.

End Routes.

(** ** Password reset ([request_password_reset], app/api/v1/auth.py) *)

(** [local_identity.password_hash = h] on the user's local identity. *)
Definition set_local_password (uid : uuid) (h : string) : db -> db :=
  set_identities (map (fun a' =>
    if (ai_user a' =? uid) && String.eqb (ai_provider a') "local"
    then mk_ai (ai_user a') (ai_provider a') h else a')).

Section PasswordReset.

(** The random temporary password and its hash. *)
Variable temp_password : string.
Variable get_password_hash : string -> string.
(** Whether [db.commit()] succeeds. *)
Variable commit_ok : bool.
(** Whether [send_temp_password_email] gets past [MessageSchema(...)] and
    [FastMail(conf)] for the recipient address; both are built outside its
    own [try], which only catches the failures of [send_message]. *)
Variable message_ok : string -> bool.

Definition msg_no_account := "존재하지않는 아이디 또는 이메일입니다.".
Definition msg_no_email := "계정에 이메일이 등록되어 있지 않아 전송할 수 없습니다.".
Definition msg_social := "소셜 로그인 계정은 비밀번호를 초기화할 수 없습니다.".
Definition msg_sent := "임시비밀번호를 전송하였습니다".
Definition msg_failed := "이메일 전송 중 오류가 발생했습니다.".

Definition matches_login (ident : string) (u : user) : bool :=
  String.eqb (u_login_id u) ident ||
  match u_email u with Some e => String.eqb e ident | None => false end.

Definition reset_body (ident : string) : tx string :=
  d <- get_db ;;
  ou <- scalar_one_or_none (filter (matches_login ident) (users d)) ;;
  match ou with
  | None => ret msg_no_account
  | Some u =>
  if negb (truthy_str (u_email u)) then ret msg_no_email else
  oa <- scalar_one_or_none (filter (fun a => (ai_user a =? u_id u) && String.eqb (ai_provider a) "local")
                                    (identities d)) ;;
  match oa with
  | None => ret msg_social
  | Some a =>
      if commit_ok then
        modify_db (set_local_password (u_id u) (get_password_hash temp_password)) ;;;
        (* after the commit: [await db.rollback()] in the [except] has nothing to undo *)
        if message_ok (match u_email u with Some e => e | None => "" end)
        then ret msg_sent else ret msg_failed
      else ret msg_failed
  end
  end.

(** The response is the JSON object [{"message": ...}]. *)
Definition request_password_reset (d : db) (ident : string) : db * result string :=
  run_tx (reset_body ident) d.

End PasswordReset.

(** ** Stage unlock ([unlock_stage], app/api/v1/progress.py) *)

Section Unlock.

(** [Stage.unlock_stage_id]: the stage that must be cleared first, a
    column the [stage] record above does not carry. *)
Variable unlock_stage_id : stage -> option uuid.

(** [stage_progress.unlock_at or datetime.now(timezone.utc)] *)
Definition unlock_at_or (p : stage_progress) (now : Z) : Z :=
  match sp_unlock_at p with Some t => t | None => now end.

(** The part of the handler after the "already unlocked" return: the
    prerequisite check, then the insert or update of the progress row. *)
Definition unlock_rest (d : db) (uid sid : uuid) (st : stage) (osp : option stage_progress)
    (now : Z) : tx (bool * Z) :=
  (match unlock_stage_id st with
   | Some r =>
       orp <- scalar_one_or_none (progress_of (stage_prog d) uid r) ;;
       match orp with
       | Some rp => if String.eqb (sp_status rp) "cleared" then ret tt
                    else raise (HTTPException 400 "Required stage not cleared")
       | None => raise (HTTPException 400 "Required stage not cleared")
       end
   | None => ret tt
   end) ;;;
  (match osp with
   | None =>
       modify_db (set_stage_prog (fun ps =>
         (ps ++ [mk_sp uid sid "unlocked" (Some now) None 0 None])%list))
   | Some _ =>
       modify_db (set_stage_prog (map (fun p =>
         if (sp_user p =? uid) && (sp_stage p =? sid)
         then mk_sp (sp_user p) (sp_stage p) "unlocked" (Some now) (sp_cleared_at p)
                    (sp_nfc_count p) (sp_best p)
         else p)))
   end) ;;;
  ret (true, now).

(** The response is [StageUnlockResponse(unlocked, unlock_at)]. *)
Definition unlock_body (uid sid : uuid) (now : Z) : tx (bool * Z) :=
  d <- get_db ;;
  ost <- scalar_one_or_none (filter (fun s => s_id s =? sid) (stages d)) ;;
  match ost with
  | None => raise (HTTPException 404 "Stage not found")
  | Some st =>
  ocp <- scalar_one_or_none (filter (fun p => (cp_user p =? uid) && (cp_content p =? s_content st))
                                    (content_prog d)) ;;
  match ocp with
  | None => raise (HTTPException 400 "User has not joined this content")
  | Some _ =>
  osp <- scalar_one_or_none (progress_of (stage_prog d) uid sid) ;;
  match osp with
  | Some p =>
      if negb (String.eqb (sp_status p) "locked") then ret (true, unlock_at_or p now)
      else unlock_rest d uid sid st osp now
  | None => unlock_rest d uid sid st osp now
  end
  end
  end.

Definition unlock_stage (d : db) (uid sid : uuid) (now : Z) : db * result (bool * Z) :=
  run_tx (unlock_body uid sid now) d.

End Unlock.

(** ** Tag registration and app lookup ([register_nfc] and
    [get_nfc_tag_by_udid_for_app], app/api/v1/nfc.py) *)

Definition set_tags (f : list nfc_tag -> list nfc_tag) (d : db) : db :=
  mk_db (users d) (f (tags d)) (hints d) (scan_logs d) (ledger d) (stages d)
        (contents d) (stage_prog d) (content_prog d) (store_rewards d) (identities d).

(** Python's [sub in s]. *)
Definition str_contains (sub s : string) : bool :=
  match String.index 0 sub s with Some _ => true | None => false end.

Section Register.

(** The [uuid4] the new row receives, and [str(e)] of the exception the
    commit raises when that id is already taken. *)
Variable new_id : uuid.
Variable pkey_error : string.

(** [NFCTag(udid=..., tag_name=..., is_active=True)]: the other columns
    take their defaults ([point_reward=0], [cooldown_sec=0],
    [use_limit=NULL]). *)
Definition new_tag (udid tag_name : string) : nfc_tag :=
  mk_tag new_id udid tag_name true 0 None 0.

(** [db.commit()] of the new row; [uq_nfc_tags_udid] cannot be hit here,
    since the row is only added when no tag has this [udid]. *)
Definition register_body (udid tag_name : string) : tx nfc_tag :=
  d <- get_db ;;
  oe <- scalar_one_or_none (filter (fun t => String.eqb (t_udid t) udid) (tags d)) ;;
  match oe with
  | Some _ => raise (HTTPException 409 "A tag with this UDID already exists.")
  | None =>
      if existsb (fun t => t_id t =? new_id) (tags d) then
        (if str_contains "uq_nfc_tags_udid" pkey_error
         then raise (HTTPException 409
                "A tag with this UDID already exists (concurrent registration).")
         else raise (HTTPException 500 ("Failed to register NFC tag: " ++ pkey_error)))
      else
        modify_db (set_tags (fun ts => (ts ++ [new_tag udid tag_name])%list)) ;;;
        ret (new_tag udid tag_name)
  end.

Definition register_nfc (d : db) (udid tag_name : string) : db * result nfc_tag :=
  run_tx (register_body udid tag_name) d.

End Register.

(** [select(NFCTag).where(NFCTag.udid == udid, NFCTag.is_active == True)],
    then [.scalars().first()]; read only. *)
Definition get_nfc_tag_by_udid_for_app (d : db) (udid : string) : result nfc_tag :=
  match filter (fun t => String.eqb (t_udid t) udid && t_active t) (tags d) with
  | t :: _ => Ok t
  | [] => Err (HTTPException 404 "NFC tag not found or is not active.")
  end.

(** ** Content progress ([get_content_progress], app/api/v1/contents.py) *)

(** The fields of [ContentProgressResponse] the [content_progress] record
    carries ([last_stage_no] and [total_play_minutes] are not modelled). *)
Record progress_response := mk_prog_resp {
  pr_status : string; pr_joined_at : option Z; pr_cleared_at : option Z }.

Definition progress_body (uid cid : uuid) : tx progress_response :=
  d <- get_db ;;
  oc <- scalar_one_or_none (filter (fun c => c_id c =? cid) (contents d)) ;;
  match oc with
  | None => raise (HTTPException 404 "Content not found")
  | Some _ =>
  op <- scalar_one_or_none (filter (fun p => (cp_user p =? uid) && (cp_content p =? cid))
                                   (content_prog d)) ;;
  match op with
  | None => ret (mk_prog_resp "not_started" None None)
  | Some p => ret (mk_prog_resp (cp_status p) (cp_joined_at p) (cp_cleared_at p))
  end
  end.

Definition get_content_progress (d : db) (uid cid : uuid) : db * result progress_response :=
  run_tx (progress_body uid cid) d.

(** ** Login id and password checks (app/core/security.py) *)

(** The class [[A-Za-z0-9._-]]. *)
Definition login_char (c : ascii) : bool :=
  let n := nat_of_ascii c in
  ((65 <=? n) && (n <=? 90))%nat || ((97 <=? n) && (n <=? 122))%nat
  || ((48 <=? n) && (n <=? 57))%nat || Ascii.eqb c "." || Ascii.eqb c "_" || Ascii.eqb c "-".

(** Python's [$] without [MULTILINE]: the end of the string, or just
    before a newline that ends it. *)
Definition py_dollar (s : string) : bool :=
  match s with
  | EmptyString => true
  | String c EmptyString => Ascii.eqb c "010"
  | _ => false
  end.

(** [[A-Za-z0-9._-]*$] matched at the start of [s], greedily with
    backtracking: first try one more class character, then [$]. *)
Fixpoint star_then_dollar (s : string) : bool :=
  (match s with
   | String c rest => login_char c && star_then_dollar rest
   | EmptyString => false
   end) || py_dollar s.

(** [re.match(r'^[A-Za-z0-9._-]+$', s)] *)
Definition re_match_login (s : string) : bool :=
  match s with
  | String c rest => login_char c && star_then_dollar rest
  | EmptyString => false
  end.

(** [validate_login_id]; [len] counts characters, and a character outside
    ASCII never matches the class, so counting bytes gives the same
    answer. *)
Definition validate_login_id (login_id : string) : bool :=
  if negb ((3 <=? String.length login_id) && (String.length login_id <=? 30))%nat then false
  else re_match_login login_id.

(** [str.islower], [str.isupper], [str.isdigit] on an ASCII character. *)
Definition is_lower (c : ascii) : bool :=
  let n := nat_of_ascii c in ((97 <=? n) && (n <=? 122))%nat.
Definition is_upper (c : ascii) : bool :=
  let n := nat_of_ascii c in ((65 <=? n) && (n <=? 90))%nat.
Definition is_digit (c : ascii) : bool :=
  let n := nat_of_ascii c in ((48 <=? n) && (n <=? 57))%nat.

(** [any(f(c) for c in s)] *)
Fixpoint any_char (f : ascii -> bool) (s : string) : bool :=
  match s with
  | EmptyString => false
  | String c rest => f c || any_char f rest
  end.

(** Every character of [s] satisfies [f]. *)
Fixpoint all_chars (f : ascii -> bool) (s : string) : bool :=
  match s with
  | EmptyString => true
  | String c rest => f c && all_chars f rest
  end.

(** The one-character string ["\n"]. *)
Definition newline : string := String "010"%char EmptyString.

Definition err_short := "비밀번호는 최소 8자 이상이어야 합니다.".
Definition err_long := "비밀번호는 128자를 초과할 수 없습니다.".
Definition err_lower := "소문자를 포함해야 합니다.".
Definition err_upper := "대문자를 포함해야 합니다.".
Definition err_digit := "숫자를 포함해야 합니다.".

(** [validate_password_strength] on an ASCII password: the pair
    [(valid, errors)] of the returned dict. *)
Definition validate_password_strength (password : string) : bool * list string :=
  let n := String.length password in
  let errors :=
    ((if (n <? 8)%nat then [err_short] else []) ++
     (if (128 <? n)%nat then [err_long] else []) ++
     (if negb (any_char is_lower password) then [err_lower] else []) ++
     (if negb (any_char is_upper password) then [err_upper] else []) ++
     (if negb (any_char is_digit password) then [err_digit] else []))%list in
  (Nat.eqb (List.length errors) 0, errors).

(** ** Temporary passwords ([_generate_random_password], app/api/v1/auth.py) *)

(** [string.ascii_letters + string.digits] *)
Definition alphabet : string :=
  "abcdefghijklmnopqrstuvwxyzABCDEFGHIJKLMNOPQRSTUVWXYZ0123456789".

Section TempPassword.

(** [secrets.choice(alphabet)] at attempt [i], position [j]: the index
    [secrets.randbelow(62)] returned there. *)
Variable randbelow : nat -> nat -> nat.

Definition choice (i j : nat) : ascii :=
  match String.get (randbelow i j) alphabet with Some c => c | None => "0"%char end.

(** [''.join(secrets.choice(alphabet) for _ in range(length))], the
    characters at positions [j], [j+1], ... *)
Fixpoint draw (i j : nat) (length : nat) : string :=
  match length with
  | O => EmptyString
  | S n => String (choice i j) (draw i (S j) n)
  end.

(** The [while True] loop, run for at most [fuel] attempts ([None]: still
    looping). *)
Fixpoint generate_random_password (fuel i : nat) (length : nat) : option string :=
  match fuel with
  | O => None
  | S f =>
      let password := draw i 0 length in
      if any_char is_lower password && any_char is_upper password && any_char is_digit password
      then Some password
      else generate_random_password f (S i) length
  end.

End TempPassword.

(** ** Local sign-up ([_create_user] and [register], app/api/v1/auth.py) *)

(** A [RegisterRequest] as the handler receives it, after FastAPI's
    validation (a request the schema rejects is answered 422 before the
    handler runs).  The schema declares [loginId], [email] (a required
    [str]) and [password], and no [nickname]. *)
Record register_request := mk_register_request {
  rr_loginId : string; rr_email : string; rr_password : string }.

(** [_create_user].  After the two duplicate checks it builds
    [User(..., nickname=register_request.nickname, ...)]: reading an
    attribute the request model does not declare raises [AttributeError],
    before anything is added to the session. *)
Definition create_user_body (req : register_request) : tx user :=
  if negb (validate_login_id (rr_loginId req)) then
    raise (HTTPException 400
             "Invalid loginId format. Must be 3-30 characters, [A-Za-z0-9._-] only")
  else
  d <- get_db ;;
  ou <- scalar_one_or_none (filter (fun u => String.eqb (u_login_id u) (rr_loginId req)) (users d)) ;;
  match ou with
  | Some _ => raise (HTTPException 409 "Login ID already exists")
  | None =>
  (if negb (String.eqb (rr_email req) "") then
     oe <- scalar_one_or_none (filter (fun u => match u_email u with
                                               | Some e' => String.eqb e' (rr_email req)
                                               | None => false
                                               end) (users d)) ;;
     match oe with
     | Some _ => raise (HTTPException 409 "이미 사용중인 이메일입니다")
     | None => ret tt
     end
   else ret tt) ;;;
  raise AttributeError
  end.

(** [register]: [_create_user], then [db.commit()]; an exception leaves
    the handler, and closing the session rolls back. *)
Definition register (d : db) (req : register_request) : db * result user :=
  run_tx (create_user_body req) d.


(** ** Pagination parameters ([get_pagination_params] and
    [PaginationParams], app/api/deps.py) *)

(** [s.split(",")]: the pieces between commas, never an empty list. *)
Fixpoint split_comma (s : string) : list string :=
  match s with
  | EmptyString => [EmptyString]
  | String c rest =>
      if Ascii.eqb c "," then EmptyString :: split_comma rest
      else match split_comma rest with
           | w :: ws => String c w :: ws
           | [] => [String c EmptyString]
           end
  end.

Record pagination := mk_pagination {
  pg_page : Z; pg_size : Z; pg_offset : Z; pg_sort_field : string; pg_sort_direction : string }.

Section Pagination.

(** [str.upper] *)
Variable py_upper : string -> string.

(** The sort part shared by both helpers. *)
Definition sort_field_of (sort : string) : string :=
  match split_comma sort with
  | f :: _ => f
  | [] => "created_at"
  end.

Definition sort_direction_of (sort : string) : string :=
  let dir := match split_comma sort with
             | _ :: d :: _ => py_upper d
             | _ => "DESC"
             end in
  if String.eqb dir "ASC" || String.eqb dir "DESC" then dir else "DESC".

Definition get_pagination_params (page size : Z) (sort : string) : pagination :=
  let page := if page <? 1 then 1 else page in
  let size := if (size <? 1) || (100 <? size) then 20 else size in
  mk_pagination page size ((page - 1) * size) (sort_field_of sort) (sort_direction_of sort).

Definition PaginationParams (page size : Z) (sort : string) : pagination :=
  let page := Z.max 1 page in
  let size := Z.min (Z.max 1 size) 100 in
  mk_pagination page size ((page - 1) * size) (sort_field_of sort) (sort_direction_of sort).

End Pagination.

(** ** Reward history ([get_rewards_history], app/api/v1/progress.py) *)

Record history_page := mk_history_page {
  hp_items : list ledger_row; hp_page : Z; hp_size : Z; hp_total : Z }.

Section RewardsHistory.

(** [ORDER BY created_at DESC]: the [ledger_row] record has no
    [created_at], and rows written in one transaction share it, so the
    order the database returns is a parameter. *)
Variable order_by_created_desc : list ledger_row -> list ledger_row.

(** [page] and [size] have passed [Query(ge=1)] and [Query(ge=1, le=100)]. *)
Definition get_rewards_history (d : db) (uid : uuid) (page size : Z) : history_page :=
  let mine := filter (fun r => r_user r =? uid) (ledger d) in
  let total := Z.of_nat (List.length mine) in
  let offset := (page - 1) * size in
  let rows := firstn (Z.to_nat size) (skipn (Z.to_nat offset) (order_by_created_desc mine)) in
  mk_history_page rows page size total.

End RewardsHistory.

(** ** Stage list of a content ([get_content_stages], app/api/v1/contents.py) *)

Record stage_item := mk_stage_item {
  si_id : uuid; si_stage_no : string; si_hidden : bool; si_lock_state : string }.

Section ContentStages.

(** [Stage.stage_no] and [Stage.is_hidden], columns the [stage] record
    does not carry, and the order [ORDER BY stage_no] returns the rows in. *)
Variable stage_no : stage -> string.
Variable is_hidden : stage -> bool.
Variable order_by_stage_no : list stage -> list stage.

(** [user_stage_progress.get(str(stage.id))]: the dict comprehension keeps
    the last row of each stage. *)
Definition progress_lookup (ps : list stage_progress) (uid sid : uuid) : option stage_progress :=
  match rev (progress_of ps uid sid) with
  | p :: _ => Some p
  | [] => None
  end.

Definition lock_state_of (ps : list stage_progress) (uid : uuid) (s : stage) : string :=
  match progress_lookup ps uid (s_id s) with
  | Some p => sp_status p
  | None => if String.eqb (stage_no s) "1" then "unlocked" else "locked"
  end.

(** The loop: a hidden stage still [locked] is skipped. *)
Definition stage_items (ps : list stage_progress) (uid : uuid) (ss : list stage) : list stage_item :=
  flat_map (fun s =>
    let lock_state := lock_state_of ps uid s in
    if is_hidden s && String.eqb lock_state "locked" then []
    else [mk_stage_item (s_id s) (stage_no s) (is_hidden s) lock_state]) ss.

Definition content_stages_body (uid cid : uuid) : tx (list stage_item) :=
  d <- get_db ;;
  oc <- scalar_one_or_none (filter (fun c => c_id c =? cid) (contents d)) ;;
  match oc with
  | None => raise (HTTPException 404 "Content not found")
  | Some _ =>
  op <- scalar_one_or_none (filter (fun p => (cp_user p =? uid) && (cp_content p =? cid))
                                   (content_prog d)) ;;
  match op with
  | None => raise (HTTPException 400 "User has not joined this content")
  | Some _ =>
      let ss := order_by_stage_no
                  (filter (fun s => (s_content s =? cid) && is_none (s_parent s)) (stages d)) in
      ret (stage_items (stage_prog d) uid ss)
  end
  end.

Definition get_content_stages (d : db) (uid cid : uuid) : db * result (list stage_item) :=
  run_tx (content_stages_body uid cid) d.

End ContentStages.

(** ** Sample data used by the concrete statements below *)

Module Fixtures.

Definition player : user := mk_user 1 "player1" None None None.
Definition player_with (n : Z) : user :=
  mk_user 1 "player1" None None (Some (mk_pdict (Some n) false)).

(** Tag [TAG1] (id 100, reward 10), bound to hint 200 of stage 300. *)
Definition tag1 (cooldown : Z) (limit : option Z) : nfc_tag :=
  mk_tag 100 "TAG1" "Gate" true cooldown limit 10.
Definition hint1 : stage_hint := mk_hint 200 300 1 (Some 100) 0.
Definition scan_db (cooldown : Z) (limit : option Z) : db :=
  mk_db [player] [tag1 cooldown limit] [hint1] [] [] [] [] [] [] [] [].
Definition tag_req : scan_request := mk_scan_req "TAG1" None.
(** One allowed scan of [TAG1] at time 0 by the player (hint 200). *)
Definition scanned_once (cooldown : Z) (limit : option Z) : db :=
  mk_db [player] [tag1 cooldown limit] [hint1] [mk_log 1 (Some 100) 0 true None (Some 200)]
        [] [] [] [] [] [] [].

(** Store reward 500 of store 600. *)
Definition reward (price : Z) (stock : option Z) : store_reward :=
  mk_sr 500 600 "Coffee" true price stock.
Definition shop_db (u : user) (rows : list ledger_row) (r : store_reward) : db :=
  mk_db [u] [] [] [] rows [] [] [] [] [r] [].
Definition seed (n : Z) : ledger_row := mk_ledger 1 n "seed" None None None.

(** Content 10 with top-level stages 1 and 2 and sub-stage 3 of stage 1;
    the player has joined and cleared stage 2. *)
Definition clear_db : db :=
  mk_db [player] [] [] [] []
        [mk_stage 1 10 None; mk_stage 2 10 None; mk_stage 3 10 (Some 1)]
        [mk_content 10 true true None None false None]
        [mk_sp 1 2 "cleared" (Some 0) (Some 0) 0 None]
        [mk_cp 1 10 "in_progress" (Some 0) None] [] [].

Definition open_content : content := mk_content 10 true true None None false None.
Definition join_db : db := mk_db [player] [] [] [] [] [] [open_content] [] [] [] [].

Definition account_db : db :=
  mk_db [mk_user 1 "player1" (Some "p1@example.com") None None] [] [] [] [] [] [] [] [] []
        [mk_ai 1 "local" "old-hash"].
Definition empty_db : db := mk_db [] [] [] [] [] [] [] [] [] [] [].

(** Stage 2 already cleared, with one stage bonus in the ledger. *)
Definition recleared_db : db :=
  mk_db [player] [] [] [] [mk_ledger 1 7 "stage bonus" None (Some 2) None]
        [mk_stage 2 10 None] [open_content]
        [mk_sp 1 2 "cleared" (Some 0) (Some 0) 0 (Some 30)] [] [] [].

(** A player whose cache and ledger agree on 100 coins. *)
Definition synced_db : db := shop_db (player_with 100) [seed 100] (reward 50 None).

(** Hint 210 of stage 300, reward 5. *)
Definition geo_hint : stage_hint := mk_hint 210 300 2 None 5.
Definition geo_db : db := mk_db [player] [] [geo_hint] [] [] [] [] [] [] [] [].
Definition geo_req : location_request := mk_loc_req (uuid_str 210) 37 127.

(** Everyone is [active]. *)
Definition all_active (_ : user) : string := "active".

(** Content 10 with top-level stages 1 and 2; stage 2 requires stage 1
    ([unlock_req]).  The player has joined and has no stage progress. *)
Definition unlock_req (s : stage) : option uuid := if s_id s =? 2 then Some 1 else None.
Definition unlock_db : db :=
  mk_db [player] [] [] [] [] [mk_stage 1 10 None; mk_stage 2 10 None] [open_content] []
        [mk_cp 1 10 "in_progress" (Some 0) None] [] [].

(** Stage numbers and hidden flags for [unlock_db]: stage 1 is number
    ["1"], stage 2 is number ["2"] and hidden. *)
Definition stage_no_of (s : stage) : string := if s_id s =? 1 then "1" else "2".
Definition hidden_of (s : stage) : bool := s_id s =? 2.

End Fixtures.

(** ** Derived notions used in the statements *)

Definition join_row (uid cid : uuid) (now_us : Z) : content_progress :=
  mk_cp uid cid "in_progress" (Some now_us) None.

(** The number of allowed scans of [tid] by [uid] in a log. *)
Definition allowed_count (logs : list scan_log) (uid tid : uuid) : Z :=
  Z.of_nat (List.length (allowed_scans logs uid tid)).

(** * Properties *)

Lemma run_tx_err_state {A} (m : tx A) s s' e :
  run_tx m s = (s', Err e) -> s' = s.
Proof.
  unfold run_tx. destruct (m s) as [[? ?]|?]; congruence.
Qed.

(** C6: re-clearing a stage whose progress is already [cleared] writes
    nothing (no ledger row, no progress change) and answers [cleared=true]
    with exactly the ledger rows of that user tagged with that stage. *)
Theorem clear_stage_idempotent (d : db) (uid sid : uuid) (best : option Z) (now : Z)
    (st : stage) (c : content) (p : stage_progress) :
  filter (fun s => s_id s =? sid) (stages d) = [st] ->
  filter (fun c => c_id c =? s_content st) (contents d) = [c] ->
  progress_of (stage_prog d) uid sid = [p] ->
  sp_status p = "cleared" ->
  clear_stage d uid sid best now =
    (d, Ok (mk_clear_resp true (map (fun r => (r_delta r, r_note r)) (stage_rewards (ledger d) uid sid))
                          false None)).
Proof.
  intros Hs Hc Hp Hst.
  unfold clear_stage, run_tx, clear_body, bind, get_db, ret.
  rewrite Hs. simpl. rewrite Hc. simpl. rewrite Hp. simpl. rewrite Hst. reflexivity.
Qed.

Lemma clear_stage_idempotent_witness :
  clear_stage Fixtures.recleared_db 1 2 (Some 10) 99 =
  (Fixtures.recleared_db, Ok (mk_clear_resp true [(7, "stage bonus")] false None)).
Proof.
  apply (clear_stage_idempotent Fixtures.recleared_db 1 2 (Some 10) 99 (mk_stage 2 10 None)
           Fixtures.open_content (mk_sp 1 2 "cleared" (Some 0) (Some 0) 0 (Some 30)));
    reflexivity.
Defined.

(** *** Requests through the router *)

(** A handler whose [async with db.begin()] meets the session
    [get_current_user] already began raises, whatever the request. *)
Lemma with_current_user_begun {A} (status : user -> string)
    (h : session -> user -> session * result A) (d : db) (uid : uuid) :
  (forall u, h (mk_session d true) u = (mk_session d true, Err InvalidRequestError)) ->
  (exists e, with_current_user status h d uid = (d, Err e)) /\
  (forall u, filter (fun u => u_id u =? uid) (users d) = [u] -> status u = "active" ->
     with_current_user status h d uid = (d, Err InvalidRequestError)).
Proof.
  intros Hh. unfold with_current_user, get_current_user. cbn [ss_db].
  split.
  - destruct (filter _ (users d)) as [|u [|u' l]]; cbn.
    + eexists; reflexivity.
    + destruct (String.eqb (status u) "active"); cbn; [rewrite Hh|]; eexists; reflexivity.
    + eexists; reflexivity.
  - intros u Hu Hs. rewrite Hu. cbn. rewrite Hs. cbn. rewrite Hh. reflexivity.
Qed.

(** A transaction body that always raises leaves the session as it was. *)
Lemma begin_tx_raises {A} (s : session) (m : tx A) :
  (exists e, m (ss_db s) = inr e) ->
  exists e, begin_tx s m = (s, Err e).
Proof.
  intros [e He]. unfold begin_tx, run_tx. destruct s as [d b]; cbn in *.
  destruct b; [eexists; reflexivity|]. rewrite He. eexists; reflexivity.
Qed.

Lemma reraise_500_raises {A} (prefix : string) (m : tx A) (d : db) :
  (exists e, m d = inr e) -> exists e, reraise_500 prefix m d = inr e.
Proof.
  intros [e He]. unfold reraise_500. rewrite He.
  destruct e; eexists; reflexivity.
Qed.

(** C7: the location check never admits anyone.  Once the hint is found,
    the handler reads [hint.location], and [StageHint] has no such
    attribute: [AttributeError], the transaction is rolled back, and no
    distance is computed.  Over HTTP it fails even earlier, at
    [db.begin()] on the session [get_current_user] already began.  The
    only answers it gives are denials (a hint not found). *)
Theorem verify_location_never_allows (d : db) (b : bool) (uid : uuid) (req : location_request) :
  (forall s' r, verify_location (mk_session d b) uid req = (s', Ok r) ->
     lresp_allowed r = false /\ s' = mk_session d b) /\
  (forall h, pg_uuid_in (lr_hint_id req) = Some (h_id h) -> hints_with_id (hints d) (h_id h) = [h] ->
     verify_location (mk_session d b) uid req =
       (mk_session d b, Err (if b then InvalidRequestError else AttributeError))) /\
  (forall (status : user -> string) u, filter (fun u => u_id u =? uid) (users d) = [u] ->
     status u = "active" ->
     verify_location_route status d uid req = (d, Err InvalidRequestError)).
Proof.
  split; [|split].
  - intros s' r. destruct b; [cbn; discriminate|].
    unfold verify_location, begin_tx, run_tx, verify_body, bind, get_db, cast_uuid. cbn.
    destruct (pg_uuid_in (lr_hint_id req)) as [hid|]; cbn; [|discriminate].
    destruct (hints_with_id (hints d) hid) as [|h [|h' l]]; cbn; try discriminate.
    intros H; inversion H; subst; split; reflexivity.
  - intros h Hid Hh. destruct b; [reflexivity|].
    unfold verify_location, begin_tx, run_tx, verify_body, bind, get_db, cast_uuid. cbn.
    rewrite Hid. cbn. rewrite Hh. reflexivity.
  - intros status u. apply (with_current_user_begun status); intros; reflexivity.
Qed.

Lemma verify_location_never_allows_witness :
  verify_location (mk_session Fixtures.geo_db false) 1 Fixtures.geo_req =
    (mk_session Fixtures.geo_db false, Err AttributeError) /\
  verify_location_route Fixtures.all_active Fixtures.geo_db 1 Fixtures.geo_req =
    (Fixtures.geo_db, Err InvalidRequestError).
Proof.
  destruct (verify_location_never_allows Fixtures.geo_db false 1 Fixtures.geo_req) as [_ [H2 H3]].
  split.
  - apply (H2 Fixtures.geo_hint); [vm_compute; reflexivity | reflexivity].
  - apply (H3 Fixtures.all_active Fixtures.player); reflexivity.
Defined.

(** C8 (as the code has it): two runs of the forgot-password endpoint, one
    for an identifier with no account and one for an existing local
    account, answer different messages. *)
Lemma password_reset_counterexample :
  snd (request_password_reset "Tmp#1234" (fun p => p) true (fun _ => true) Fixtures.empty_db "player1")
    = Ok msg_no_account /\
  snd (request_password_reset "Tmp#1234" (fun p => p) true (fun _ => true) Fixtures.account_db "player1")
    = Ok msg_sent /\
  msg_no_account <> msg_sent.
Proof. split; [reflexivity | split; [reflexivity | discriminate]]. Qed.

(** C8 (amended): the forgot-password response tells whether an account
    exists.  An identifier matching no account gets the message
    ["존재하지않는 아이디 또는 이메일입니다."] with nothing written; an
    identifier matching exactly one account never gets that message. *)
Theorem password_reset_reveals_account (tp : string) (hash : string -> string) (ok : bool)
    (mok : string -> bool) (d : db) (ident : string) :
  (filter (matches_login ident) (users d) = [] ->
     request_password_reset tp hash ok mok d ident = (d, Ok msg_no_account)) /\
  (forall u, filter (matches_login ident) (users d) = [u] ->
     snd (request_password_reset tp hash ok mok d ident) <> Ok msg_no_account).
Proof.
  unfold request_password_reset, run_tx, reset_body, bind, get_db.
  split.
  - intros H. rewrite H. reflexivity.
  - intros u H. rewrite H. simpl.
    destruct (negb (truthy_str (u_email u))); [simpl; discriminate|].
    destruct (filter _ (identities d)) as [|a [|a' l]]; simpl; [discriminate| |discriminate].
    destruct ok; simpl; [destruct (mok _)|]; simpl; discriminate.
Qed.

Lemma password_reset_reveals_account_witness :
  request_password_reset "Tmp#1234" (fun p => p) true (fun _ => true) Fixtures.empty_db "player1"
    = (Fixtures.empty_db, Ok msg_no_account) /\
  snd (request_password_reset "Tmp#1234" (fun p => p) true (fun _ => true) Fixtures.account_db "player1")
    <> Ok msg_no_account.
Proof.
  split.
  - apply (proj1 (password_reset_reveals_account "Tmp#1234" (fun p => p) true (fun _ => true)
                    Fixtures.empty_db "player1")).
    reflexivity.
  - apply (proj2 (password_reset_reveals_account "Tmp#1234" (fun p => p) true (fun _ => true)
                    Fixtures.account_db "player1")
             (mk_user 1 "player1" (Some "p1@example.com") None None)).
    reflexivity.
Defined.

(** For a user with an email address and a local identity, the
    forgot-password endpoint answers the failure message
    ["이메일 전송 중 오류가 발생했습니다."] whenever [db.commit()] fails (with
    nothing written) and also whenever the mail cannot be built after a
    successful commit: the new password hash is then stored although the
    user is told that sending failed and never receives the password. *)
Theorem password_reset_failed_after_commit (tp : string) (hash : string -> string) (ok : bool)
    (mok : string -> bool) (d : db) (ident : string) (u : user) (a : auth_identity) (e : string) :
  filter (matches_login ident) (users d) = [u] ->
  u_email u = Some e -> e <> "" ->
  filter (fun a => (ai_user a =? u_id u) && String.eqb (ai_provider a) "local") (identities d) = [a] ->
  request_password_reset tp hash ok mok d ident =
    if ok then (set_local_password (u_id u) (hash tp) d, Ok (if mok e then msg_sent else msg_failed))
    else (d, Ok msg_failed).
Proof.
  intros Hu He Hne Ha.
  unfold request_password_reset, run_tx, reset_body, bind, get_db, ret, modify_db.
  cbn -[set_local_password]. rewrite Hu. cbn -[set_local_password].
  rewrite He. cbn -[set_local_password].
  replace (String.eqb e "") with false by (symmetry; apply String.eqb_neq; exact Hne).
  cbn -[set_local_password]. rewrite Ha. cbn -[set_local_password].
  destruct ok; [destruct (mok e)|]; reflexivity.
Qed.

Lemma password_reset_failed_after_commit_witness :
  request_password_reset "Tmp#1234" (fun p => p) true (fun _ => false) Fixtures.account_db "player1" =
    (set_local_password 1 "Tmp#1234" Fixtures.account_db, Ok msg_failed).
Proof.
  apply (password_reset_failed_after_commit "Tmp#1234" (fun p => p) true (fun _ => false)
           Fixtures.account_db "player1" (mk_user 1 "player1" (Some "p1@example.com") None None)
           (mk_ai 1 "local" "old-hash") "p1@example.com");
    [reflexivity | reflexivity | discriminate | reflexivity].
Defined.

(** C9 (as the code has it): the first [/join] on an open, always-on
    content records the status ["in_progress"], not ["joined"]. *)
Lemma join_content_counterexample :
  exists d', join_content Fixtures.join_db 1 10 1000 = (d', Ok (mk_join_resp true "in_progress")) /\
             map cp_status (content_prog d') = ["in_progress"] /\
             "in_progress" <> "joined".
Proof. eexists. split; [reflexivity | split; [reflexivity | discriminate]]. Qed.

(** C9 (amended): for a content that is open and either [is_always_on] or
    without [start_at]/[end_at], the first [/join] of a user appends one
    progress row with status ["in_progress"] and [joined_at = now] and
    answers [joined=true, status="in_progress"]; a repeated [/join] (one
    row already there) answers [joined=true] with the row's current status
    and writes nothing, so no second row appears; in particular joining
    again right after the first join answers ["in_progress"] and leaves the
    state as the first join left it. *)
Theorem join_content_first_and_repeat (d : db) (uid cid : uuid) (now_us : Z) (c : content) :
  filter (fun c => c_id c =? cid) (contents d) = [c] ->
  c_open c = true ->
  c_always_on c = true \/ (c_start c = None /\ c_end c = None) ->
  (filter (fun p => (cp_user p =? uid) && (cp_content p =? cid)) (content_prog d) = [] ->
     join_content d uid cid now_us =
       (set_content_prog (fun ps => (ps ++ [join_row uid cid now_us])%list) d,
        Ok (mk_join_resp true "in_progress")) /\
     forall now_us',
       join_content (set_content_prog (fun ps => (ps ++ [join_row uid cid now_us])%list) d)
                    uid cid now_us' =
       (set_content_prog (fun ps => (ps ++ [join_row uid cid now_us])%list) d,
        Ok (mk_join_resp true "in_progress"))) /\
  (forall p, filter (fun p => (cp_user p =? uid) && (cp_content p =? cid)) (content_prog d) = [p] ->
     join_content d uid cid now_us = (d, Ok (mk_join_resp true (cp_status p)))).
Proof.
  intros Hc Ho Hw.
  assert (Hrun : forall s t,
             filter (fun c => c_id c =? cid) (contents s) = [c] ->
             join_content s uid cid t =
             run_tx (op <- scalar_one_or_none
                             (filter (fun p => (cp_user p =? uid) && (cp_content p =? cid))
                                     (content_prog s)) ;;
                     match op with
                     | Some p => ret (mk_join_resp true (cp_status p))
                     | None =>
                         modify_db (set_content_prog (fun ps =>
                           (ps ++ [mk_cp uid cid "in_progress" (Some t) None])%list)) ;;;
                         ret (mk_join_resp true "in_progress")
                     end) s).
  { intros s t Hcs. unfold join_content, run_tx, join_body, bind, get_db. simpl.
    rewrite Hcs. simpl. rewrite Ho. simpl.
    destruct Hw as [Ha | [Hs He]];
      [rewrite Ha | rewrite Hs, He; destruct (negb (c_always_on c))]; reflexivity. }
  split.
  - intros Hnone. split.
    + rewrite (Hrun d now_us Hc). rewrite Hnone. reflexivity.
    + intros t. rewrite Hrun by exact Hc.
      simpl. rewrite filter_app, Hnone. simpl.
      rewrite !Z.eqb_refl. reflexivity.
  - intros p Hp. rewrite (Hrun d now_us Hc), Hp. reflexivity.
Qed.

Lemma join_content_first_and_repeat_witness :
  join_content Fixtures.join_db 1 10 1000 =
    (set_content_prog (fun ps => (ps ++ [join_row 1 10 1000])%list) Fixtures.join_db,
     Ok (mk_join_resp true "in_progress")).
Proof.
  destruct (join_content_first_and_repeat Fixtures.join_db 1 10 1000 Fixtures.open_content)
    as [H1 _]; [reflexivity | reflexivity | left; reflexivity |].
  apply H1. reflexivity.
Defined.

(** [consume_body] raises on every path. *)
Lemma consume_body_raises (uid rid : uuid) (d : db) :
  exists e, consume_body uid rid d = inr e.
Proof.
  unfold consume_body, bind, get_db, ret, raise, modify_db, scalar_one_or_none.
  destruct (find_reward d rid) as [|ri [|ri' l]]; cbn; [eexists; reflexivity| |eexists; reflexivity].
  destruct (sr_active ri); cbn; [|eexists; reflexivity].
  destruct (sr_stock ri) as [q|]; cbn; [destruct (q <=? 0); cbn; [eexists; reflexivity|]|];
    (destruct (ledger_sum (ledger d) uid <? sr_price ri); cbn; eexists; reflexivity).
Qed.

(** [redeem_body] raises on every path. *)
Lemma redeem_body_raises (uid rid : uuid) (d : db) :
  exists e, redeem_body uid rid d = inr e.
Proof.
  unfold redeem_body, bind, get_db, get_user, ret, raise, modify_db, scalar_one_or_none.
  destruct (find_reward d rid) as [|rw [|rw' l]]; cbn; [eexists; reflexivity| |eexists; reflexivity].
  destruct (sr_active rw); cbn; [|eexists; reflexivity].
  destruct (sr_stock rw) as [q|]; cbn; [destruct (q <=? 0); cbn; [eexists; reflexivity|]|];
    (destruct (filter _ _) as [|u [|u' us]]; cbn; try (eexists; reflexivity);
     destruct (cached_points (u_profile u) <? sr_price rw); cbn; eexists; reflexivity).
Qed.

(** C2: over HTTP, [/progress/rewards/consume] never answers the
    insufficiency message: [db.begin()] meets the session
    [get_current_user] already began and raises [InvalidRequestError]
    (HTTP 500), whatever the balance; nothing is written.
    [/rewards/redeem], which commits and rolls back itself, does answer
    HTTP 400 with its message for a user whose cached balance is below
    [price_coin] (reward existing, active and in stock), and its stock
    decrement is rolled back, so the database is left as it was. *)
Theorem consume_fails_redeem_rolls_back (status : user -> string) (d : db) (uid rid : uuid) :
  (exists e, consume_reward_route status d uid rid = (d, Err e)) /\
  (forall u, filter (fun u => u_id u =? uid) (users d) = [u] -> status u = "active" ->
     consume_reward_route status d uid rid = (d, Err InvalidRequestError)) /\
  (forall rw u, find_reward d rid = [rw] -> sr_active rw = true ->
     (sr_stock rw = None \/ exists q, sr_stock rw = Some q /\ 0 < q) ->
     filter (fun u => u_id u =? uid) (users d) = [u] -> status u = "active" ->
     cached_points (u_profile u) < sr_price rw ->
     redeem_reward_route status d uid rid =
       (d, Err (HTTPException 400 ("포인트가 부족합니다. (보유: " ++ str_of_Z (cached_points (u_profile u))
                                   ++ "P, 필요: " ++ str_of_Z (sr_price rw) ++ "P)")))).
Proof.
  destruct (with_current_user_begun status (fun s u => consume_reward s (u_id u) rid) d uid)
    as [H1 H2]; [intros; reflexivity|].
  split; [exact H1 | split; [exact H2|]].
  intros rw u Hf Ha Hs Hu Hst Hlt.
  assert (Huid : u_id u = uid).
  { assert (Hin : In u (filter (fun u => u_id u =? uid) (users d))) by (rewrite Hu; left; reflexivity).
    apply filter_In in Hin. apply Z.eqb_eq. tauto. }
  apply Z.ltb_lt in Hlt.
  unfold redeem_reward_route, with_current_user, get_current_user. cbn [ss_db].
  rewrite Hu. cbn. rewrite Hst. cbn. rewrite Huid.
  unfold redeem_reward, run_tx, reraise_500, redeem_body, bind, get_db, get_user. cbn.
  rewrite Hf. cbn. rewrite Ha. cbn.
  destruct Hs as [Hn | [q [Hq Hpos]]].
  - rewrite Hn. cbn. rewrite Hu. cbn. rewrite Hlt. reflexivity.
  - rewrite Hq. replace (q <=? 0) with false by (symmetry; apply Z.leb_gt; exact Hpos).
    cbn. rewrite Hu. cbn. rewrite Hlt. reflexivity.
Qed.

Lemma consume_fails_redeem_rolls_back_witness :
  consume_reward_route Fixtures.all_active
    (Fixtures.shop_db (Fixtures.player_with 10) [Fixtures.seed 10] (Fixtures.reward 50 (Some 3))) 1 500 =
    (Fixtures.shop_db (Fixtures.player_with 10) [Fixtures.seed 10] (Fixtures.reward 50 (Some 3)),
     Err InvalidRequestError) /\
  redeem_reward_route Fixtures.all_active
    (Fixtures.shop_db (Fixtures.player_with 10) [Fixtures.seed 10] (Fixtures.reward 50 (Some 3))) 1 500 =
    (Fixtures.shop_db (Fixtures.player_with 10) [Fixtures.seed 10] (Fixtures.reward 50 (Some 3)),
     Err (HTTPException 400 "포인트가 부족합니다. (보유: 10P, 필요: 50P)")).
Proof.
  destruct (consume_fails_redeem_rolls_back Fixtures.all_active
              (Fixtures.shop_db (Fixtures.player_with 10) [Fixtures.seed 10]
                                (Fixtures.reward 50 (Some 3))) 1 500) as [_ [H2 H3]].
  split.
  - apply (H2 (Fixtures.player_with 10)); reflexivity.
  - apply (H3 (Fixtures.reward 50 (Some 3)) (Fixtures.player_with 10));
      [reflexivity | reflexivity | right; exists 3; split; [reflexivity | lia]
      | reflexivity | reflexivity | vm_compute; reflexivity].
Defined.

(** [consume_reward] never commits, whatever the session and the request:
    every path of its body raises, and the [async with db.begin()] block
    rolls back.  On a fresh session, for an existing, active reward in stock
    and a ledger balance that covers its price, the error is the 500 built
    from the [TypeError] of [RewardLedger(store_id=...)]. *)
Theorem consume_reward_never_commits (s : session) (uid rid : uuid) :
  (exists e, consume_reward s uid rid = (s, Err e)) /\
  (forall rw, ss_begun s = false -> find_reward (ss_db s) rid = [rw] -> sr_active rw = true ->
     (sr_stock rw = None \/ exists q, sr_stock rw = Some q /\ 0 < q) ->
     sr_price rw <= ledger_sum (ledger (ss_db s)) uid ->
     consume_reward s uid rid =
       (s, Err (Wrapped500 "An error occurred during transaction: "
                  (InvalidKeyword "store_id" "RewardLedger")))).
Proof.
  split.
  - apply begin_tx_raises, reraise_500_raises, consume_body_raises.
  - intros rw Hb Hf Ha Hs Hp. destruct s as [d b]; cbn in *. subst b.
    apply Z.ltb_ge in Hp.
    unfold consume_reward, begin_tx, run_tx, reraise_500, consume_body, bind, get_db. cbn.
    rewrite Hf. cbn. rewrite Ha. cbn.
    destruct Hs as [Hn | [q [Hq Hpos]]].
    + rewrite Hn. cbn. rewrite Hp. reflexivity.
    + rewrite Hq. replace (q <=? 0) with false by (symmetry; apply Z.leb_gt; exact Hpos).
      cbn. rewrite Hp. reflexivity.
Qed.

Lemma consume_reward_never_commits_witness :
  consume_reward (mk_session (Fixtures.shop_db (Fixtures.player_with 100) [Fixtures.seed 100]
                                               (Fixtures.reward 50 (Some 3))) false) 1 500 =
    (mk_session (Fixtures.shop_db (Fixtures.player_with 100) [Fixtures.seed 100]
                                  (Fixtures.reward 50 (Some 3))) false,
     Err (Wrapped500 "An error occurred during transaction: "
            (InvalidKeyword "store_id" "RewardLedger"))).
Proof.
  apply (proj2 (consume_reward_never_commits
                  (mk_session (Fixtures.shop_db (Fixtures.player_with 100) [Fixtures.seed 100]
                                                (Fixtures.reward 50 (Some 3))) false) 1 500)
               (Fixtures.reward 50 (Some 3)));
    [reflexivity | reflexivity | reflexivity | right; exists 3; split; [reflexivity | lia]
    | vm_compute; discriminate].
Defined.

(** [redeem_reward] never commits: every path of its body raises, and the
    handler rolls back.  For an existing, active reward in stock and a user
    whose cached balance covers its price, the error is the 500 built from
    the [TypeError] of [RewardLedger(store_reward_id=...)]; the stock and
    profile writes before it are rolled back. *)
Theorem redeem_reward_never_commits (d : db) (uid rid : uuid) :
  (exists e, redeem_reward d uid rid = (d, Err e)) /\
  (forall rw u, find_reward d rid = [rw] -> sr_active rw = true ->
     (sr_stock rw = None \/ exists q, sr_stock rw = Some q /\ 0 < q) ->
     filter (fun u => u_id u =? uid) (users d) = [u] ->
     sr_price rw <= cached_points (u_profile u) ->
     redeem_reward d uid rid =
       (d, Err (Wrapped500 "An error occurred: " (InvalidKeyword "store_reward_id" "RewardLedger")))).
Proof.
  split.
  - destruct (reraise_500_raises "An error occurred: " (redeem_body uid rid) d
                (redeem_body_raises uid rid d)) as [e He].
    exists e. unfold redeem_reward, run_tx. rewrite He. reflexivity.
  - intros rw u Hf Ha Hs Hu Hp. apply Z.ltb_ge in Hp.
    unfold redeem_reward, run_tx, reraise_500, redeem_body, bind, get_db, get_user. cbn.
    rewrite Hf. cbn. rewrite Ha. cbn.
    destruct Hs as [Hn | [q [Hq Hpos]]].
    + rewrite Hn. cbn. rewrite Hu. cbn. rewrite Hp. reflexivity.
    + rewrite Hq. replace (q <=? 0) with false by (symmetry; apply Z.leb_gt; exact Hpos).
      cbn. rewrite Hu. cbn. rewrite Hp. reflexivity.
Qed.

Lemma redeem_reward_never_commits_witness :
  redeem_reward Fixtures.synced_db 1 500 =
    (Fixtures.synced_db,
     Err (Wrapped500 "An error occurred: " (InvalidKeyword "store_reward_id" "RewardLedger"))).
Proof.
  apply (proj2 (redeem_reward_never_commits Fixtures.synced_db 1 500)
               (Fixtures.reward 50 None) (Fixtures.player_with 100));
    [reflexivity | reflexivity | left; reflexivity | reflexivity | vm_compute; discriminate].
Defined.

(** C1: an admin adjustment of +5 for a user whose cached balance and
    ledger sum both are 100 commits the ledger row but not the cache:
    [user.profile['points'] = ...] mutates the loaded dict in place, which
    the ORM does not see, so no UPDATE of [users.profile] is emitted.
    Afterwards the ledger sums to 105 and the cache still says 100. *)
Theorem adjust_points_cache_drift :
  ledger_sum (ledger Fixtures.synced_db) 1 = 100 /\ cached_balance Fixtures.synced_db 1 = 100 /\
  exists d' e,
    adjust_user_points Fixtures.synced_db 1 5 "event bonus" = (d', Ok e) /\
    ledger_sum (ledger d') 1 = 105 /\ cached_balance d' 1 = 100.
Proof. split; [reflexivity | split; [reflexivity |]]. do 2 eexists. repeat split. Qed.

(** An admin adjustment of an existing user always commits its ledger row;
    the cached [profile] is written only when it was [None]: the handler
    then assigns a fresh dict to the attribute, which the ORM records, and
    the row gets [{"points": coin_delta}].  A profile that is already a
    dict is mutated in place and left as it was in the database. *)
Theorem adjust_points_cache_update (d : db) (user_id : uuid) (delta : Z) (note : string) (u : user) :
  filter (fun u => u_id u =? user_id) (users d) = [u] ->
  adjust_user_points d user_id delta note =
    (match u_profile u with
     | None => update_profile (u_id u) (Some (mk_pdict (Some delta) false))
                 (add_ledger (mk_ledger (u_id u) delta note None None None) d)
     | Some _ => add_ledger (mk_ledger (u_id u) delta note None None None) d
     end,
     Ok (mk_ledger (u_id u) delta note None None None)).
Proof.
  intros Hu. unfold adjust_user_points, run_tx, adjust_body, bind, get_db, ret, modify_db.
  cbn -[update_profile add_ledger]. rewrite Hu. cbn -[update_profile add_ledger].
  destruct (u_profile u) as [pd|]; cbn -[update_profile add_ledger]; reflexivity.
Qed.

Lemma adjust_points_cache_update_witness :
  adjust_user_points (Fixtures.shop_db Fixtures.player [] (Fixtures.reward 50 None)) 1 5 "event bonus" =
    (update_profile 1 (Some (mk_pdict (Some 5) false))
       (add_ledger (mk_ledger 1 5 "event bonus" None None None)
          (Fixtures.shop_db Fixtures.player [] (Fixtures.reward 50 None))),
     Ok (mk_ledger 1 5 "event bonus" None None None)) /\
  adjust_user_points Fixtures.synced_db 1 5 "event bonus" =
    (add_ledger (mk_ledger 1 5 "event bonus" None None None) Fixtures.synced_db,
     Ok (mk_ledger 1 5 "event bonus" None None None)).
Proof.
  split.
  - apply (adjust_points_cache_update _ 1 5 "event bonus" Fixtures.player). reflexivity.
  - apply (adjust_points_cache_update _ 1 5 "event bonus" (Fixtures.player_with 100)). reflexivity.
Defined.

(** C3: content 10 has top-level stages 1 and 2 and sub-stage 3 under
    stage 1; the user has cleared only stage 2.  Clearing the sub-stage 3
    marks the content ["cleared"] although top-level stage 1 has no cleared
    progress: [cleared_stage_ids.add(stage.id)] puts the sub-stage's id into
    the set whose size is compared with the number of top-level stages. *)
Theorem clear_substage_marks_content_cleared :
  exists d' resp,
    clear_stage Fixtures.clear_db 1 3 None 5 = (d', Ok resp) /\
    cr_content_cleared resp = true /\
    map cp_status (content_prog d') = ["cleared"] /\
    top_level_ids (stages d') 10 = [1; 2] /\
    progress_of (stage_prog d') 1 1 = [].
Proof. do 2 eexists. repeat split. Qed.

(** C4: whenever the cooldown query finds an allowed scan of an active tag
    with [cooldown_sec > 0], the handler computes
    [datetime.utcnow() - recent_scan.scanned_at]: a naive minus an aware
    datetime, which raises [TypeError].  The request fails, the transaction
    is rolled back, and no denied log row is written; no [cooldown_sec] is
    ever reported.  On a session that already has a transaction (every
    HTTP request: [get_current_user] began it) [db.begin()] raises
    [InvalidRequestError] first. *)
Theorem scan_cooldown_raises (d : db) (b : bool) (uid : uuid) (req : scan_request) (now : Z)
    (t : nfc_tag) (recent : scan_log) :
  filter (fun t => String.eqb (t_udid t) (req_udid req)) (tags d) = [t] ->
  t_active t = true ->
  0 < t_cooldown t ->
  recent_allowed_scan (scan_logs d) uid (t_id t) (now - t_cooldown t * 1000000) = Some recent ->
  scan_nfc (mk_session d b) uid req now =
    (mk_session d b, Err (if b then InvalidRequestError else TypeError)).
Proof.
  intros Ht Ha Hc Hr. destruct b; [reflexivity|].
  unfold scan_nfc, begin_tx, run_tx, scan_body, bind, get_db. simpl.
  rewrite Ht. simpl. rewrite Ha. simpl.
  replace (0 <? t_cooldown t) with true by (symmetry; apply Z.ltb_lt; exact Hc).
  rewrite Hr. reflexivity.
Qed.

Lemma scan_cooldown_raises_witness :
  scan_nfc (mk_session (Fixtures.scanned_once 60 None) false) 1 Fixtures.tag_req 10000000 =
    (mk_session (Fixtures.scanned_once 60 None) false, Err TypeError).
Proof.
  apply (scan_cooldown_raises (Fixtures.scanned_once 60 None) false 1 Fixtures.tag_req 10000000
           (Fixtures.tag1 60 None) (mk_log 1 (Some 100) 0 true None (Some 200)));
    [vm_compute; reflexivity | reflexivity | vm_compute; reflexivity | vm_compute; reflexivity].
Defined.

Lemma hints_with_id_nil_existsb (hs : list stage_hint) (u : uuid) :
  hints_with_id hs u = [] -> existsb (fun h => h_id h =? u) hs = false.
Proof.
  unfold hints_with_id. induction hs as [|h hs IH]; simpl; [reflexivity|].
  destruct (h_id h =? u); [discriminate | exact IH].
Qed.

(** C10: a scan that passes the tag, active, cooldown and usage-limit
    checks but supplies a [hint_id] matching no hint row fails and writes
    nothing: the raw text is bound against the uuid column [stage_hints.id]
    (a malformed id is rejected there) and is then written unchanged into
    [nfc_scan_logs.hint_id], whose foreign key to [stage_hints] rejects a
    well-formed id of no hint at flush.  No allowed row, no reward.  (Over
    HTTP, [db.begin()] raises before any of this.) *)
Theorem scan_unknown_hint_fails (d : db) (b : bool) (uid : uuid) (req : scan_request) (now : Z)
    (t : nfc_tag) (s : string) :
  filter (fun t => String.eqb (t_udid t) (req_udid req)) (tags d) = [t] ->
  t_active t = true ->
  (t_cooldown t <= 0 \/
   recent_allowed_scan (scan_logs d) uid (t_id t) (now - t_cooldown t * 1000000) = None) ->
  (forall n, t_use_limit t = Some n ->
     Z.of_nat (List.length (allowed_scans (scan_logs d) uid (t_id t))) < n) ->
  req_hint_id req = Some s -> s <> "" ->
  (forall u, pg_uuid_in s = Some u -> hints_with_id (hints d) u = []) ->
  exists e, scan_nfc (mk_session d b) uid req now = (mk_session d b, Err e).
Proof.
  intros Ht Ha Hc Hl Hs Hne Hu. destruct b; [eexists; reflexivity|].
  assert (Hlim : match t_use_limit t with
                 | Some n => n <=? Z.of_nat (List.length (allowed_scans (scan_logs d) uid (t_id t)))
                 | None => false
                 end = false).
  { destruct (t_use_limit t) as [n|] eqn:E; [|reflexivity].
    apply Z.leb_gt. apply Hl. reflexivity. }
  assert (Htr : truthy_str (req_hint_id req) = true).
  { rewrite Hs. simpl. destruct (String.eqb s "") eqn:E; [|reflexivity].
    apply String.eqb_eq in E. contradiction. }
  unfold scan_nfc, begin_tx, run_tx, scan_body, bind, get_db. simpl.
  rewrite Ht. simpl. rewrite Ha. simpl.
  destruct (0 <? t_cooldown t) eqn:Ec.
  - destruct Hc as [Hc | Hc]; [apply Z.ltb_lt in Ec; lia|]. rewrite Hc. simpl.
    rewrite Hlim, Htr, Hs. simpl.
    unfold cast_uuid. destruct (pg_uuid_in s) as [u|] eqn:Ep; simpl; [|eexists; reflexivity].
    rewrite (Hu u eq_refl). simpl. unfold insert_log, bind, cast_uuid. simpl. rewrite Ep. simpl.
    rewrite (hints_with_id_nil_existsb _ _ (Hu u eq_refl)). eexists; reflexivity.
  - simpl. rewrite Hlim, Htr, Hs. simpl.
    unfold cast_uuid. destruct (pg_uuid_in s) as [u|] eqn:Ep; simpl; [|eexists; reflexivity].
    rewrite (Hu u eq_refl). simpl. unfold insert_log, bind, cast_uuid. simpl. rewrite Ep. simpl.
    rewrite (hints_with_id_nil_existsb _ _ (Hu u eq_refl)). eexists; reflexivity.
Qed.

Lemma scan_unknown_hint_fails_witness :
  (exists e, scan_nfc (mk_session (Fixtures.scan_db 0 None) false) 1
                        (mk_scan_req "TAG1" (Some "abc")) 0 =
               (mk_session (Fixtures.scan_db 0 None) false, Err e)) /\
  (exists e, scan_nfc (mk_session (Fixtures.scan_db 0 None) false) 1
                        (mk_scan_req "TAG1" (Some (uuid_str 999))) 0 =
               (mk_session (Fixtures.scan_db 0 None) false, Err e)).
Proof.
  split.
  - apply (scan_unknown_hint_fails (Fixtures.scan_db 0 None) false 1 (mk_scan_req "TAG1" (Some "abc")) 0
             (Fixtures.tag1 0 None) "abc");
      [reflexivity | reflexivity | left; discriminate | discriminate | reflexivity | discriminate |].
    intros u H. vm_compute in H. discriminate.
  - apply (scan_unknown_hint_fails (Fixtures.scan_db 0 None) false 1
             (mk_scan_req "TAG1" (Some (uuid_str 999))) 0 (Fixtures.tag1 0 None) (uuid_str 999));
      [reflexivity | reflexivity | left; discriminate | discriminate | reflexivity
      | vm_compute; discriminate |].
    intros u H. vm_compute in H. injection H as <-. reflexivity.
Defined.

(** C5: over HTTP no scan is ever answered.  [get_current_user] looks the
    user up on the request's session, which begins its transaction, and
    [scan_nfc] then opens [async with db.begin()] on that same session:
    [InvalidRequestError], HTTP 500, nothing written.  So a user who has
    reached a tag's [use_limit] never gets ["Usage limit reached for this
    NFC tag"], and no denied log row is appended.  A user that is missing
    or not active gets 401 before the handler runs. *)
Theorem scan_nfc_route_fails (status : user -> string) (d : db) (uid : uuid)
    (req : scan_request) (now : Z) :
  (exists e, scan_nfc_route status d uid req now = (d, Err e)) /\
  (forall u, filter (fun u => u_id u =? uid) (users d) = [u] -> status u = "active" ->
     scan_nfc_route status d uid req now = (d, Err InvalidRequestError)).
Proof.
  apply (with_current_user_begun status (fun s u => scan_nfc s (u_id u) req now)).
  intros u. reflexivity.
Qed.

Lemma scan_nfc_route_fails_witness :
  allowed_count (scan_logs (Fixtures.scanned_once 0 (Some 1))) 1 100 = 1 /\
  scan_nfc_route Fixtures.all_active (Fixtures.scanned_once 0 (Some 1)) 1 Fixtures.tag_req 5000000 =
    (Fixtures.scanned_once 0 (Some 1), Err InvalidRequestError).
Proof.
  split; [reflexivity|].
  apply (proj2 (scan_nfc_route_fails Fixtures.all_active (Fixtures.scanned_once 0 (Some 1)) 1
                  Fixtures.tag_req 5000000) Fixtures.player); reflexivity.
Defined.

(** *** Transaction-body bookkeeping *)

Lemma insert_log_spec uid nfc now al rs hp s s' a :
  insert_log uid nfc now al rs hp s = inl (s', a) ->
  exists h, s' = add_log (mk_log uid nfc now al rs h) s.
Proof.
  unfold insert_log, bind, get_db, cast_uuid, modify_db, ret, raise.
  destruct hp as [|txt|u]; simpl.
  - intros H; inversion H; subst; eexists; reflexivity.
  - destruct (pg_uuid_in txt) as [u|]; simpl; [|discriminate].
    destruct (existsb _ (hints s)); simpl; [|discriminate].
    intros H; inversion H; subst; eexists; reflexivity.
  - destruct (existsb _ (hints s)); simpl; [|discriminate].
    intros H; inversion H; subst; eexists; reflexivity.
Qed.

Lemma grant_points_frame m uid delta note s s' a :
  grant_points m uid delta note s = inl (s', a) ->
  tags s' = tags s /\ scan_logs s' = scan_logs s.
Proof.
  unfold grant_points, bind, modify_db, get_user, get_db, scalar_one_or_none, ret, raise. cbn.
  destruct (filter _ _) as [|u [|u' us]]; cbn; try discriminate.
  intros H; inversion H; subst; split; reflexivity.
Qed.

Lemma bump_stage_progress_frame uid st s s' a :
  bump_stage_progress uid st s = inl (s', a) ->
  tags s' = tags s /\ scan_logs s' = scan_logs s.
Proof.
  unfold bump_stage_progress, bind, modify_db, get_db, scalar_one_or_none, ret, raise. cbn.
  destruct (filter _ _) as [|p [|p' ps]]; cbn; try discriminate;
    intros H; inversion H; subst; split; reflexivity.
Qed.

Lemma scalar_one_or_none_spec {A} (l : list A) s s' o :
  scalar_one_or_none l s = inl (s', o) -> s' = s /\ (forall x, o = Some x -> In x l).
Proof.
  unfold scalar_one_or_none, ret, raise.
  destruct l as [|a [|b l]]; intros H; inversion H; subst; split; auto;
    intros x Hx; inversion Hx; subst; simpl; auto.
Qed.

Lemma cast_uuid_spec txt s s' v : cast_uuid txt s = inl (s', v) -> s' = s.
Proof.
  unfold cast_uuid, ret, raise. destruct (pg_uuid_in txt); intros H; inversion H; auto.
Qed.

Ltac tx_simpl H :=
  cbn -[scalar_one_or_none cast_uuid insert_log grant_points bump_stage_progress add_log] in H;
  try discriminate H.

Ltac tx_split H :=
  repeat match type of H with
  | context [match scalar_one_or_none ?l ?s0 with _ => _ end] =>
      let E := fresh "E" in let s := fresh "s" in let o := fresh "o" in
      let Ein := fresh "Ein" in
      destruct (scalar_one_or_none l s0) as [[s o]|?] eqn:E; [|discriminate H];
      apply scalar_one_or_none_spec in E; destruct E as [? Ein]; subst s; tx_simpl H
  | context [match cast_uuid ?t ?s0 with _ => _ end] =>
      let E := fresh "E" in let s := fresh "s" in
      destruct (cast_uuid t s0) as [[s ?]|?] eqn:E; [|discriminate H];
      apply cast_uuid_spec in E; subst s; tx_simpl H
  | context [match insert_log ?a1 ?a2 ?a3 ?a4 ?a5 ?a6 ?s0 with _ => _ end] =>
      let E := fresh "E" in let s := fresh "s" in let h := fresh "h" in
      destruct (insert_log a1 a2 a3 a4 a5 a6 s0) as [[s ?]|?] eqn:E; [|discriminate H];
      apply insert_log_spec in E; destruct E as [h E]; subst s; tx_simpl H
  | context [match grant_points ?a1 ?a2 ?a3 ?a4 ?s0 with _ => _ end] =>
      let E := fresh "E" in let s := fresh "s" in
      destruct (grant_points a1 a2 a3 a4 s0) as [[s ?]|?] eqn:E; [|discriminate H];
      apply grant_points_frame in E; tx_simpl H
  | context [match bump_stage_progress ?a1 ?a2 ?s0 with _ => _ end] =>
      let E := fresh "E" in let s := fresh "s" in
      destruct (bump_stage_progress a1 a2 s0) as [[s ?]|?] eqn:E; [|discriminate H];
      apply bump_stage_progress_frame in E; tx_simpl H
  | context [(match ?c with _ => _ end) ?s] =>
      let E := fresh "E" in destruct c eqn:E; tx_simpl H
  | context [match ?x with _ => _ end] =>
      let E := fresh "E" in destruct x eqn:E; tx_simpl H
  end.

(** *** Stage unlock *)

(** Rewriting the progress rows of [(uid, sid)] with a function that keeps
    their keys rewrites exactly the rows [progress_of] selects. *)
Lemma progress_of_map_update (ps : list stage_progress) (uid sid : uuid)
    (f : stage_progress -> stage_progress) :
  (forall q, sp_user (f q) = sp_user q /\ sp_stage (f q) = sp_stage q) ->
  progress_of (map (fun q => if (sp_user q =? uid) && (sp_stage q =? sid) then f q else q) ps)
    uid sid = map f (progress_of ps uid sid).
Proof.
  intros Hf. induction ps as [|q ps IH]; [reflexivity|].
  unfold progress_of in *. simpl.
  destruct ((sp_user q =? uid) && (sp_stage q =? sid)) eqn:E; simpl.
  - destruct (Hf q) as [H1 H2]. rewrite H1, H2, E. simpl. f_equal. exact IH.
  - rewrite E. exact IH.
Qed.

Lemma progress_of_app (ps qs : list stage_progress) (uid sid : uuid) :
  progress_of (ps ++ qs) uid sid = (progress_of ps uid sid ++ progress_of qs uid sid)%list.
Proof. unfold progress_of. apply filter_app. Qed.

(** A progress row that is not [locked] is answered as it is. *)
Lemma unlock_body_progressed (usid : stage -> option uuid) (d : db) (uid sid : uuid) (now : Z)
    (st : stage) (c : content_progress) (p : stage_progress) :
  filter (fun s => s_id s =? sid) (stages d) = [st] ->
  filter (fun q => (cp_user q =? uid) && (cp_content q =? s_content st)) (content_prog d) = [c] ->
  progress_of (stage_prog d) uid sid = [p] ->
  sp_status p <> "locked" ->
  unlock_stage usid d uid sid now = (d, Ok (true, unlock_at_or p now)).
Proof.
  intros Hs Hc Hp Hst.
  unfold unlock_stage, run_tx, unlock_body, bind, get_db.
  rewrite Hs. simpl. rewrite Hc. simpl. rewrite Hp. simpl.
  destruct (String.eqb_spec (sp_status p) "locked"); [contradiction|reflexivity].
Qed.

(** [unlock_stage] never downgrades: when the user's progress row for the
    stage exists and is not [locked] (for instance [cleared]), the handler
    writes nothing and answers [unlocked=true] with the row's [unlock_at]
    (or the current time when that column is NULL). *)
Theorem unlock_stage_keeps_progress (usid : stage -> option uuid) (d : db) (uid sid : uuid)
    (now : Z) (st : stage) (c : content_progress) (p : stage_progress) :
  filter (fun s => s_id s =? sid) (stages d) = [st] ->
  filter (fun q => (cp_user q =? uid) && (cp_content q =? s_content st)) (content_prog d) = [c] ->
  progress_of (stage_prog d) uid sid = [p] ->
  sp_status p <> "locked" ->
  unlock_stage usid d uid sid now = (d, Ok (true, unlock_at_or p now)).
Proof. exact (unlock_body_progressed usid d uid sid now st c p). Qed.

(** The prerequisite check of [unlock_stage]. *)
Lemma unlock_body_prereq_fails (usid : stage -> option uuid) (d : db)
    (uid sid : uuid) (now : Z) (st : stage) (c : content_progress) (r : uuid) :
  filter (fun s => s_id s =? sid) (stages d) = [st] ->
  filter (fun q => (cp_user q =? uid) && (cp_content q =? s_content st)) (content_prog d) = [c] ->
  (progress_of (stage_prog d) uid sid = [] \/
   exists p, progress_of (stage_prog d) uid sid = [p] /\ sp_status p = "locked") ->
  usid st = Some r ->
  (List.length (progress_of (stage_prog d) uid r) <= 1)%nat ->
  (forall rp, progress_of (stage_prog d) uid r = [rp] -> sp_status rp <> "cleared") ->
  unlock_stage usid d uid sid now = (d, Err (HTTPException 400 "Required stage not cleared")).
Proof.
  intros Hs Hc Hp Hr Hlen Hrp.
  assert (Hrest : unlock_rest usid d uid sid st (match progress_of (stage_prog d) uid sid with
                                                  | [x] => Some x | _ => None end) now d
                  = inr (HTTPException 400 "Required stage not cleared")).
  { unfold unlock_rest, bind. rewrite Hr.
    destruct (progress_of (stage_prog d) uid r) as [|rp [|rp' rs]] eqn:Er; simpl in Hlen |- *.
    - reflexivity.
    - destruct (String.eqb_spec (sp_status rp) "cleared") as [E|E];
        [exfalso; exact (Hrp rp eq_refl E)|reflexivity].
    - lia. }
  unfold unlock_stage, run_tx, unlock_body, bind at 1, get_db.
  unfold bind at 1. rewrite Hs. cbn - [unlock_rest]. unfold bind at 1. rewrite Hc. cbn - [unlock_rest].
  destruct Hp as [Hp | [p [Hp Hl]]]; rewrite Hp in Hrest |- *; cbn - [unlock_rest].
  - rewrite Hrest. reflexivity.
  - rewrite Hl. cbn - [unlock_rest]. rewrite Hrest. reflexivity.
Qed.

(** When the stage has an [unlock_stage_id] whose progress row for the user
    is missing or not [cleared], unlocking a stage that is locked (or has
    no progress row) fails with 400 ["Required stage not cleared"] and
    writes nothing. *)
Theorem unlock_stage_requires_prerequisite (usid : stage -> option uuid) (d : db)
    (uid sid : uuid) (now : Z) (st : stage) (c : content_progress) (r : uuid) :
  filter (fun s => s_id s =? sid) (stages d) = [st] ->
  filter (fun q => (cp_user q =? uid) && (cp_content q =? s_content st)) (content_prog d) = [c] ->
  (progress_of (stage_prog d) uid sid = [] \/
   exists p, progress_of (stage_prog d) uid sid = [p] /\ sp_status p = "locked") ->
  usid st = Some r ->
  (List.length (progress_of (stage_prog d) uid r) <= 1)%nat ->
  (forall rp, progress_of (stage_prog d) uid r = [rp] -> sp_status rp <> "cleared") ->
  unlock_stage usid d uid sid now = (d, Err (HTTPException 400 "Required stage not cleared")).
Proof. exact (unlock_body_prereq_fails usid d uid sid now st c r). Qed.

(** The successful unlock and the state it leaves. *)
Lemma unlock_stage_success (usid : stage -> option uuid) (d : db) (uid sid : uuid)
    (now : Z) (st : stage) (c : content_progress) :
  filter (fun s => s_id s =? sid) (stages d) = [st] ->
  filter (fun q => (cp_user q =? uid) && (cp_content q =? s_content st)) (content_prog d) = [c] ->
  (progress_of (stage_prog d) uid sid = [] \/
   exists p, progress_of (stage_prog d) uid sid = [p] /\ sp_status p = "locked") ->
  match usid st with
  | Some r => exists rp, progress_of (stage_prog d) uid r = [rp] /\ sp_status rp = "cleared"
  | None => True
  end ->
  exists d',
    unlock_stage usid d uid sid now = (d', Ok (true, now)) /\
    (exists p', progress_of (stage_prog d') uid sid = [p'] /\
                sp_status p' = "unlocked" /\ sp_unlock_at p' = Some now) /\
    forall now', unlock_stage usid d' uid sid now' = (d', Ok (true, now)).
Proof.
  intros Hs Hc Hp Hr.
  assert (Hpre : (match usid st with
                  | Some r =>
                      orp <- scalar_one_or_none (progress_of (stage_prog d) uid r) ;;
                      match orp with
                      | Some rp => if String.eqb (sp_status rp) "cleared" then ret tt
                                   else raise (HTTPException 400 "Required stage not cleared")
                      | None => raise (HTTPException 400 "Required stage not cleared")
                      end
                  | None => ret tt
                  end) d = inl (d, tt)).
  { destruct (usid st) as [r|]; [|reflexivity].
    destruct Hr as [rp [Er Es]]. unfold bind. rewrite Er. simpl. rewrite Es. reflexivity. }
  (* the state after the write, and the row it leaves *)
  destruct Hp as [Hp | [p [Hp Hl]]].
  - set (d' := set_stage_prog (fun ps => (ps ++ [mk_sp uid sid "unlocked" (Some now) None 0 None])%list) d).
    assert (Hrun : unlock_stage usid d uid sid now = (d', Ok (true, now))).
    { unfold unlock_stage, run_tx, unlock_body, bind at 1, get_db.
      unfold bind at 1. rewrite Hs. simpl. unfold bind at 1. rewrite Hc. simpl.
      unfold bind at 1. rewrite Hp. simpl. unfold unlock_rest, bind at 1. rewrite Hpre.
      reflexivity. }
    assert (Hp' : progress_of (stage_prog d') uid sid = [mk_sp uid sid "unlocked" (Some now) None 0 None]).
    { simpl. rewrite progress_of_app, Hp. unfold progress_of. simpl.
      rewrite !Z.eqb_refl. reflexivity. }
    exists d'. split; [exact Hrun|]. split.
    + eexists; split; [exact Hp'|split; reflexivity].
    + intros now'.
      rewrite (unlock_body_progressed usid d' uid sid now' st c (mk_sp uid sid "unlocked" (Some now) None 0 None));
        [reflexivity|exact Hs|exact Hc|exact Hp'|discriminate].
  - set (upd := fun q : stage_progress => mk_sp (sp_user q) (sp_stage q) "unlocked" (Some now)
                                            (sp_cleared_at q) (sp_nfc_count q) (sp_best q)).
    set (d' := set_stage_prog (map (fun q => if (sp_user q =? uid) && (sp_stage q =? sid)
                                             then upd q else q)) d).
    assert (Hrun : unlock_stage usid d uid sid now = (d', Ok (true, now))).
    { unfold unlock_stage, run_tx, unlock_body, bind at 1, get_db.
      unfold bind at 1. rewrite Hs. simpl. unfold bind at 1. rewrite Hc. simpl.
      unfold bind at 1. rewrite Hp. simpl. rewrite Hl. simpl.
      unfold unlock_rest, bind at 1. rewrite Hpre. reflexivity. }
    assert (Hp' : progress_of (stage_prog d') uid sid = [upd p]).
    { simpl. rewrite (progress_of_map_update _ uid sid upd); [rewrite Hp; reflexivity|].
      intros q; split; reflexivity. }
    exists d'. split; [exact Hrun|]. split.
    + eexists; split; [exact Hp'|split; reflexivity].
    + intros now'.
      rewrite (unlock_body_progressed usid d' uid sid now' st c (upd p));
        [reflexivity|exact Hs|exact Hc|exact Hp'|discriminate].
Qed.

(** A successful unlock of a locked (or not yet started) stage whose
    prerequisite, if any, is cleared answers [unlock_at = now], leaves one
    progress row for the user and the stage, [unlocked] since [now]; any
    later unlock of the same stage is then a no-op answering that same
    [unlock_at]. *)
Theorem unlock_stage_then_again (usid : stage -> option uuid) (d : db) (uid sid : uuid)
    (now : Z) (st : stage) (c : content_progress) :
  filter (fun s => s_id s =? sid) (stages d) = [st] ->
  filter (fun q => (cp_user q =? uid) && (cp_content q =? s_content st)) (content_prog d) = [c] ->
  (progress_of (stage_prog d) uid sid = [] \/
   exists p, progress_of (stage_prog d) uid sid = [p] /\ sp_status p = "locked") ->
  match usid st with
  | Some r => exists rp, progress_of (stage_prog d) uid r = [rp] /\ sp_status rp = "cleared"
  | None => True
  end ->
  exists d',
    unlock_stage usid d uid sid now = (d', Ok (true, now)) /\
    (exists p', progress_of (stage_prog d') uid sid = [p'] /\
                sp_status p' = "unlocked" /\ sp_unlock_at p' = Some now) /\
    forall now', unlock_stage usid d' uid sid now' = (d', Ok (true, now)).
Proof. exact (unlock_stage_success usid d uid sid now st c). Qed.

(** [clear_stage] does not check what [unlock_stage] checks: in every state
    where unlocking a stage fails because its prerequisite stage is not
    cleared, clearing that stage succeeds and leaves its progress row
    [cleared]. *)
Theorem clear_stage_skips_unlock_prerequisite (usid : stage -> option uuid) (d : db)
    (uid sid : uuid) (best : option Z) (now : Z) (st : stage) (cc : content)
    (c : content_progress) (r : uuid) :
  filter (fun s => s_id s =? sid) (stages d) = [st] ->
  filter (fun c => c_id c =? s_content st) (contents d) = [cc] ->
  filter (fun q => (cp_user q =? uid) && (cp_content q =? s_content st)) (content_prog d) = [c] ->
  (progress_of (stage_prog d) uid sid = [] \/
   exists p, progress_of (stage_prog d) uid sid = [p] /\ sp_status p = "locked") ->
  usid st = Some r ->
  (List.length (progress_of (stage_prog d) uid r) <= 1)%nat ->
  (forall rp, progress_of (stage_prog d) uid r = [rp] -> sp_status rp <> "cleared") ->
  unlock_stage usid d uid sid now = (d, Err (HTTPException 400 "Required stage not cleared")) /\
  exists d' resp,
    clear_stage d uid sid best now = (d', Ok resp) /\ cr_cleared resp = true /\
    exists p', progress_of (stage_prog d') uid sid = [p'] /\ sp_status p' = "cleared".
Proof.
  intros Hs Hcc Hc Hp Hr Hlen Hrp. split.
  { exact (unlock_body_prereq_fails usid d uid sid now st c r Hs Hc Hp Hr Hlen Hrp). }
  unfold clear_stage, run_tx, clear_body, bind, get_db, modify_db, ret.
  rewrite Hs. simpl. rewrite Hcc. simpl.
  destruct Hp as [Hp | [p [Hp Hl]]]; rewrite Hp; simpl; [|rewrite Hl; simpl].
  - destruct (Nat.eqb _ _); simpl; [rewrite Hc; simpl|];
      (do 2 eexists; split; [reflexivity|]; split; [reflexivity|]);
      simpl; rewrite progress_of_app, Hp; unfold progress_of; simpl; rewrite !Z.eqb_refl;
      eexists; split; reflexivity.
  - destruct (Nat.eqb _ _); simpl; [rewrite Hc; simpl|];
      (do 2 eexists; split; [reflexivity|]; split; [reflexivity|]); simpl;
      (rewrite progress_of_map_update; [rewrite Hp; eexists; split; reflexivity
                                        | intros q; split; reflexivity]).
Qed.

Lemma unlock_stage_keeps_progress_witness :
  unlock_stage Fixtures.unlock_req Fixtures.clear_db 1 2 50 = (Fixtures.clear_db, Ok (true, 0)).
Proof.
  apply (unlock_stage_keeps_progress Fixtures.unlock_req Fixtures.clear_db 1 2 50
           (mk_stage 2 10 None) (mk_cp 1 10 "in_progress" (Some 0) None)
           (mk_sp 1 2 "cleared" (Some 0) (Some 0) 0 None));
    [reflexivity | reflexivity | reflexivity | discriminate].
Defined.

Lemma unlock_stage_requires_prerequisite_witness :
  unlock_stage Fixtures.unlock_req Fixtures.unlock_db 1 2 50
    = (Fixtures.unlock_db, Err (HTTPException 400 "Required stage not cleared")).
Proof.
  apply (unlock_stage_requires_prerequisite Fixtures.unlock_req Fixtures.unlock_db 1 2 50
           (mk_stage 2 10 None) (mk_cp 1 10 "in_progress" (Some 0) None) 1);
    [reflexivity | reflexivity | left; reflexivity | reflexivity | simpl; lia
    | intros rp H; discriminate H].
Defined.

Lemma unlock_stage_then_again_witness :
  exists d',
    unlock_stage Fixtures.unlock_req Fixtures.unlock_db 1 1 50 = (d', Ok (true, 50)) /\
    (exists p', progress_of (stage_prog d') 1 1 = [p'] /\
                sp_status p' = "unlocked" /\ sp_unlock_at p' = Some 50) /\
    forall now', unlock_stage Fixtures.unlock_req d' 1 1 now' = (d', Ok (true, 50)).
Proof.
  apply (unlock_stage_then_again Fixtures.unlock_req Fixtures.unlock_db 1 1 50
           (mk_stage 1 10 None) (mk_cp 1 10 "in_progress" (Some 0) None));
    [reflexivity | reflexivity | left; reflexivity | exact I].
Defined.

Lemma clear_stage_skips_unlock_prerequisite_witness :
  unlock_stage Fixtures.unlock_req Fixtures.unlock_db 1 2 50
    = (Fixtures.unlock_db, Err (HTTPException 400 "Required stage not cleared")) /\
  exists d' resp,
    clear_stage Fixtures.unlock_db 1 2 None 50 = (d', Ok resp) /\ cr_cleared resp = true /\
    exists p', progress_of (stage_prog d') 1 2 = [p'] /\ sp_status p' = "cleared".
Proof.
  apply (clear_stage_skips_unlock_prerequisite Fixtures.unlock_req Fixtures.unlock_db 1 2 None 50
           (mk_stage 2 10 None) Fixtures.open_content (mk_cp 1 10 "in_progress" (Some 0) None) 1);
    [reflexivity | reflexivity | reflexivity | left; reflexivity | reflexivity | simpl; lia
    | intros rp H; discriminate H].
Defined.

(** *** Tag registration and app lookup *)

Lemma filter_andb {A} (f g : A -> bool) (l : list A) :
  filter (fun x => f x && g x) l = filter g (filter f l).
Proof.
  induction l as [|x l IH]; [reflexivity|]. simpl.
  destruct (f x); simpl; [destruct (g x); [f_equal|]|]; exact IH.
Qed.

(** Registering a [udid] no tag has, with a fresh row id, commits one new
    active tag with the default reward, cooldown and usage limit; the app
    lookup then returns that tag, and the lookup of [scan_nfc] finds
    exactly it. *)
Theorem register_nfc_then_lookup (new_id : uuid) (pkey_error : string) (d : db)
    (udid tag_name : string) :
  filter (fun t => String.eqb (t_udid t) udid) (tags d) = [] ->
  existsb (fun t => t_id t =? new_id) (tags d) = false ->
  let t := mk_tag new_id udid tag_name true 0 None 0 in
  let d' := set_tags (fun ts => (ts ++ [t])%list) d in
  register_nfc new_id pkey_error d udid tag_name = (d', Ok t) /\
  get_nfc_tag_by_udid_for_app d' udid = Ok t /\
  filter (fun t => String.eqb (t_udid t) udid) (tags d') = [t].
Proof.
  intros Hu Hid t d'.
  assert (Hf : filter (fun t => String.eqb (t_udid t) udid) (tags d') = [t]).
  { simpl. rewrite filter_app, Hu. simpl. rewrite String.eqb_refl. reflexivity. }
  split; [|split; [|exact Hf]].
  - unfold register_nfc, run_tx, register_body, bind, get_db.
    rewrite Hu. simpl. rewrite Hid. reflexivity.
  - unfold get_nfc_tag_by_udid_for_app.
    rewrite (filter_andb (fun t => String.eqb (t_udid t) udid) t_active), Hf. reflexivity.
Qed.

(** A [udid] that one tag already has cannot be registered again: the
    request fails with 409 and writes nothing.  When that tag is inactive,
    the app lookup of the [udid] also fails, with 404. *)
Theorem register_nfc_existing_udid (new_id : uuid) (pkey_error : string) (d : db)
    (udid tag_name : string) (t : nfc_tag) :
  filter (fun t => String.eqb (t_udid t) udid) (tags d) = [t] ->
  register_nfc new_id pkey_error d udid tag_name
    = (d, Err (HTTPException 409 "A tag with this UDID already exists.")) /\
  (t_active t = false ->
   get_nfc_tag_by_udid_for_app d udid = Err (HTTPException 404 "NFC tag not found or is not active.")).
Proof.
  intros Ht. split.
  - unfold register_nfc, run_tx, register_body, bind, get_db. rewrite Ht. reflexivity.
  - intros Ha. unfold get_nfc_tag_by_udid_for_app.
    rewrite (filter_andb (fun t => String.eqb (t_udid t) udid) t_active), Ht. simpl.
    rewrite Ha. reflexivity.
Qed.

Lemma NoDup_snoc {A} (l : list A) (x : A) :
  NoDup l -> ~ In x l -> NoDup (l ++ [x]).
Proof.
  induction l as [|a l IH]; simpl; intros Hn Hx.
  - constructor; [intros []|constructor].
  - inversion Hn as [|? ? Ha Hl]; subst. constructor.
    + rewrite in_app_iff. intros [H|[H|[]]]; [exact (Ha H)|apply Hx; left; symmetry; exact H].
    + apply IH; [exact Hl|]. intros H; apply Hx; right; exact H.
Qed.

(** Registration keeps the tags' [udid]s, and their ids, pairwise
    distinct, whatever the request and whatever its outcome. *)
Theorem register_nfc_keeps_udids_unique (new_id : uuid) (pkey_error : string) (d : db)
    (udid tag_name : string) :
  NoDup (map t_udid (tags d)) -> NoDup (map t_id (tags d)) ->
  let d' := fst (register_nfc new_id pkey_error d udid tag_name) in
  NoDup (map t_udid (tags d')) /\ NoDup (map t_id (tags d')).
Proof.
  intros Hu Hi d'. unfold d', register_nfc, run_tx, register_body, bind, get_db.
  destruct (filter (fun t => String.eqb (t_udid t) udid) (tags d)) as [|t0 [|t1 ts]] eqn:Hf;
    simpl; [|split; assumption|split; assumption].
  destruct (existsb (fun t => t_id t =? new_id) (tags d)) eqn:Hid;
    [destruct (str_contains _ _); simpl; split; assumption|].
  simpl. rewrite !map_app. simpl. split; apply NoDup_snoc; try assumption.
  - intros Hin. apply in_map_iff in Hin. destruct Hin as [t [Ht Hin]].
    assert (In t (filter (fun t => String.eqb (t_udid t) udid) (tags d)))
      by (apply filter_In; split; [exact Hin|apply String.eqb_eq; exact Ht]).
    rewrite Hf in H. exact H.
  - intros Hin. apply in_map_iff in Hin. destruct Hin as [t [Ht Hin]].
    assert (existsb (fun t => t_id t =? new_id) (tags d) = true)
      by (apply existsb_exists; exists t; split; [exact Hin|apply Z.eqb_eq; exact Ht]).
    congruence.
Qed.

Lemma register_nfc_then_lookup_witness :
  let t := mk_tag 101 "TAG2" "Door" true 0 None 0 in
  let d' := set_tags (fun ts => (ts ++ [t])%list) (Fixtures.scan_db 0 None) in
  register_nfc 101 "duplicate key" (Fixtures.scan_db 0 None) "TAG2" "Door" = (d', Ok t) /\
  get_nfc_tag_by_udid_for_app d' "TAG2" = Ok t /\
  filter (fun t => String.eqb (t_udid t) "TAG2") (tags d') = [t].
Proof.
  apply (register_nfc_then_lookup 101 "duplicate key" (Fixtures.scan_db 0 None) "TAG2" "Door");
    reflexivity.
Defined.

Lemma register_nfc_existing_udid_witness :
  let d := set_tags (fun _ => [mk_tag 100 "TAG1" "Gate" false 0 None 10]) (Fixtures.scan_db 0 None) in
  register_nfc 101 "duplicate key" d "TAG1" "Gate 2"
    = (d, Err (HTTPException 409 "A tag with this UDID already exists.")) /\
  get_nfc_tag_by_udid_for_app d "TAG1" = Err (HTTPException 404 "NFC tag not found or is not active.").
Proof.
  destruct (register_nfc_existing_udid 101 "duplicate key"
              (set_tags (fun _ => [mk_tag 100 "TAG1" "Gate" false 0 None 10]) (Fixtures.scan_db 0 None))
              "TAG1" "Gate 2" (mk_tag 100 "TAG1" "Gate" false 0 None 10)) as [H1 H2];
    [reflexivity|].
  split; [exact H1|apply H2; reflexivity].
Defined.

Lemma register_nfc_keeps_udids_unique_witness :
  let d' := fst (register_nfc 101 "duplicate key" (Fixtures.scan_db 0 None) "TAG2" "Door") in
  NoDup (map t_udid (tags d')) /\ NoDup (map t_id (tags d')).
Proof.
  apply (register_nfc_keeps_udids_unique 101 "duplicate key" (Fixtures.scan_db 0 None) "TAG2" "Door");
    simpl; repeat constructor; simpl; tauto.
Defined.

(** *** Content progress *)

(** A successful join of content [cid] by a user with no progress row for
    it appends exactly [join_row]. *)
Lemma join_content_success_state (d : db) (uid cid : uuid) (now : Z) (r : join_response) :
  filter (fun p => (cp_user p =? uid) && (cp_content p =? cid)) (content_prog d) = [] ->
  snd (join_content d uid cid now) = Ok r ->
  fst (join_content d uid cid now) = set_content_prog (fun ps => (ps ++ [join_row uid cid now])%list) d.
Proof.
  intros Hno. unfold join_content, run_tx.
  destruct (join_body uid cid now d) as [[d' r']|e] eqn:Hb; simpl; [|discriminate].
  intros _. unfold join_body, bind, get_db, ret, raise, modify_db in Hb.
  tx_simpl Hb. tx_split Hb.
  all: try (inversion Hb; subst; reflexivity).
  all: try congruence.
  all: try (rewrite Hno in *; discriminate).
  all: match goal with H : forall x, Some ?o = Some x -> In x _ |- _ =>
         specialize (H o eq_refl); rewrite Hno in H; destruct H end.
Qed.

(** Before joining, the progress of a content reads [not_started]; after a
    successful [join_content] it reads [in_progress], joined at the time
    of the join and not cleared. *)
Theorem join_then_content_progress (d : db) (uid cid : uuid) (now : Z) (c : content)
    (r : join_response) :
  filter (fun c => c_id c =? cid) (contents d) = [c] ->
  filter (fun p => (cp_user p =? uid) && (cp_content p =? cid)) (content_prog d) = [] ->
  snd (join_content d uid cid now) = Ok r ->
  get_content_progress d uid cid = (d, Ok (mk_prog_resp "not_started" None None)) /\
  let d' := fst (join_content d uid cid now) in
  get_content_progress d' uid cid = (d', Ok (mk_prog_resp "in_progress" (Some now) None)).
Proof.
  intros Hc Hno Hj. split.
  - unfold get_content_progress, run_tx, progress_body, bind, get_db.
    rewrite Hc. simpl. rewrite Hno. reflexivity.
  - cbv zeta. rewrite (join_content_success_state d uid cid now r Hno Hj).
    unfold get_content_progress, run_tx, progress_body, bind, get_db. simpl.
    rewrite Hc. simpl. rewrite filter_app, Hno. simpl. rewrite !Z.eqb_refl. reflexivity.
Qed.

Lemma join_then_content_progress_witness :
  get_content_progress Fixtures.join_db 1 10 = (Fixtures.join_db, Ok (mk_prog_resp "not_started" None None)) /\
  let d' := fst (join_content Fixtures.join_db 1 10 77) in
  get_content_progress d' 1 10 = (d', Ok (mk_prog_resp "in_progress" (Some 77) None)).
Proof.
  apply (join_then_content_progress Fixtures.join_db 1 10 77 Fixtures.open_content
           (mk_join_resp true "in_progress")); reflexivity.
Defined.

(** *** Login id and password checks *)

Lemma star_then_dollar_spec (s : string) :
  star_then_dollar s = true <->
  all_chars login_char s = true \/
  exists p, all_chars login_char p = true /\ s = (p ++ newline)%string.
Proof.
  induction s as [|c rest IH]; simpl.
  - split; [intros _; left; reflexivity|intros _; reflexivity].
  - rewrite orb_true_iff, andb_true_iff, IH. split.
    + intros [[Hc [Hr|[p [Hp ->]]]]|Hd].
      * left. rewrite Hc, Hr. reflexivity.
      * right. exists (String c p). simpl. rewrite Hc, Hp. split; reflexivity.
      * destruct rest as [|c' r']; [|discriminate Hd].
        apply Ascii.eqb_eq in Hd. subst c. right. exists EmptyString. split; reflexivity.
    + intros [Ha|[p [Hp Hs]]].
      * apply andb_true_iff in Ha. left. split; [apply Ha|left; apply Ha].
      * destruct p as [|c' p']; simpl in Hs; inversion Hs; subst.
        -- right. reflexivity.
        -- simpl in Hp. apply andb_true_iff in Hp. left.
           split; [apply Hp|right; exists p'; split; [apply Hp|reflexivity]].
Qed.

(** [validate_login_id] accepts exactly the strings of 3 to 30 characters
    made of a non-empty run of [[A-Za-z0-9._-]], optionally followed by one
    final newline: Python's [$] also matches just before a newline that
    ends the string, so for instance ["ab\n"] is accepted. *)
Theorem validate_login_id_iff (s : string) :
  validate_login_id s = true <->
  (3 <= String.length s <= 30)%nat /\
  exists p, p <> EmptyString /\ all_chars login_char p = true /\
            (s = p \/ s = (p ++ newline)%string).
Proof.
  unfold validate_login_id.
  destruct ((3 <=? String.length s) && (String.length s <=? 30))%nat eqn:Hl; simpl.
  - apply andb_true_iff in Hl. destruct Hl as [H1 H2].
    apply Nat.leb_le in H1. apply Nat.leb_le in H2.
    unfold re_match_login. destruct s as [|c rest]; simpl in *; [lia|].
    rewrite andb_true_iff, star_then_dollar_spec. split.
    + intros [Hc [Hr|[p [Hp ->]]]].
      * split; [lia|]. exists (String c rest). simpl. rewrite Hc, Hr.
        split; [discriminate|split; [reflexivity|left; reflexivity]].
      * split; [lia|]. exists (String c p). simpl. rewrite Hc, Hp.
        split; [discriminate|split; [reflexivity|right; reflexivity]].
    + intros [_ [p [Hne [Hp [Hs|Hs]]]]]; destruct p as [|c' p']; try contradiction;
        simpl in Hs, Hp; inversion Hs; subst; apply andb_true_iff in Hp;
        (split; [apply Hp|]).
      * left. apply Hp.
      * right. exists p'. split; [apply Hp|reflexivity].
  - split; [discriminate|]. intros [[H1 H2] _].
    apply Nat.leb_le in H1. apply Nat.leb_le in H2. rewrite H1, H2 in Hl. discriminate.
Qed.

Lemma draw_length (randbelow : nat -> nat -> nat) (i j n : nat) :
  String.length (draw randbelow i j n) = n.
Proof. revert j. induction n as [|n IH]; intros j; simpl; [reflexivity|f_equal; apply IH]. Qed.

Lemma all_chars_get (f : ascii -> bool) (s : string) (k : nat) (c : ascii) :
  all_chars f s = true -> String.get k s = Some c -> f c = true.
Proof.
  revert k. induction s as [|c0 s IH]; intros k Ha Hg; [discriminate|].
  simpl in Ha. apply andb_true_iff in Ha. destruct k as [|k]; simpl in Hg.
  - inversion Hg; subst. apply Ha.
  - exact (IH k (proj2 Ha) Hg).
Qed.

Lemma draw_alnum (randbelow : nat -> nat -> nat) (i j n : nat) :
  all_chars (fun c => is_lower c || is_upper c || is_digit c) (draw randbelow i j n) = true.
Proof.
  revert j. induction n as [|n IH]; intros j; simpl; [reflexivity|].
  rewrite IH, andb_true_r. unfold choice.
  destruct (String.get (randbelow i j) alphabet) as [c|] eqn:Hg; [|reflexivity].
  exact (all_chars_get (fun c => is_lower c || is_upper c || is_digit c) alphabet _ c eq_refl Hg).
Qed.

(** Every password [_generate_random_password] returns for a length
    between 8 and 128 (the default is 8) passes [validate_password_strength]
    with no error; it has the requested length and only ASCII letters and
    digits.  So the temporary password of the forgot-password flow meets
    the password policy. *)
Theorem temp_password_meets_policy (randbelow : nat -> nat -> nat) (fuel i len : nat)
    (p : string) :
  (8 <= len <= 128)%nat ->
  generate_random_password randbelow fuel i len = Some p ->
  validate_password_strength p = (true, []) /\ String.length p = len /\
  all_chars (fun c => is_lower c || is_upper c || is_digit c) p = true.
Proof.
  intros Hlen. revert i. induction fuel as [|f IH]; intros i Hg; simpl in Hg; [discriminate|].
  destruct (any_char is_lower (draw randbelow i 0 len) && any_char is_upper (draw randbelow i 0 len)
            && any_char is_digit (draw randbelow i 0 len)) eqn:Hc; [|exact (IH (S i) Hg)].
  inversion Hg; subst p. clear Hg.
  apply andb_true_iff in Hc. destruct Hc as [Hc Hd]. apply andb_true_iff in Hc. destruct Hc as [Hl Hu].
  split; [|split; [apply draw_length|apply draw_alnum]].
  unfold validate_password_strength. rewrite draw_length, Hl, Hu, Hd.
  replace (len <? 8)%nat with false by (symmetry; apply Nat.ltb_ge; lia).
  replace (128 <? len)%nat with false by (symmetry; apply Nat.ltb_ge; lia).
  reflexivity.
Qed.

Lemma temp_password_meets_policy_witness :
  validate_password_strength "aA0aA0aA" = (true, []) /\ String.length "aA0aA0aA" = 8%nat /\
  all_chars (fun c => is_lower c || is_upper c || is_digit c) "aA0aA0aA" = true.
Proof.
  apply (temp_password_meets_policy (fun _ j => (26 * Nat.modulo j 3)%nat) 1 0 8);
    [lia | reflexivity].
Defined.

(** *** Local sign-up *)

(** Local sign-up never creates a user: every request is answered with an
    error and nothing is written.  A request with a valid, unused login id
    and an empty or unused email gets past both duplicate checks and fails
    with the [AttributeError] of [register_request.nickname]. *)
Theorem register_never_creates_user (d : db) (req : register_request) :
  (exists e, register d req = (d, Err e)) /\
  (validate_login_id (rr_loginId req) = true ->
   filter (fun u => String.eqb (u_login_id u) (rr_loginId req)) (users d) = [] ->
   (rr_email req = "" \/
    filter (fun u => match u_email u with
                     | Some e' => String.eqb e' (rr_email req)
                     | None => false
                     end) (users d) = []) ->
   register d req = (d, Err AttributeError)).
Proof.
  unfold register, run_tx, create_user_body, bind, get_db, ret, raise, scalar_one_or_none.
  split.
  - destruct (validate_login_id (rr_loginId req)); cbn; [|eexists; reflexivity].
    destruct (filter _ (users d)) as [|u [|u' l]]; cbn; try (eexists; reflexivity).
    destruct (String.eqb (rr_email req) ""); cbn; [eexists; reflexivity|].
    destruct (filter _ (users d)) as [|v [|v' l']]; cbn; eexists; reflexivity.
  - intros Hv Hl He. rewrite Hv. cbn. rewrite Hl. cbn.
    destruct He as [He | He].
    + rewrite He. reflexivity.
    + destruct (String.eqb (rr_email req) ""); cbn; [reflexivity|]. rewrite He. reflexivity.
Qed.

Lemma register_never_creates_user_witness :
  register Fixtures.account_db (mk_register_request "newbie" "n@example.com" "Secret123") =
    (Fixtures.account_db, Err AttributeError).
Proof.
  apply (proj2 (register_never_creates_user Fixtures.account_db
                  (mk_register_request "newbie" "n@example.com" "Secret123")));
    [vm_compute; reflexivity | reflexivity | right; reflexivity].
Defined.


(** *** Pagination parameters *)

Lemma split_comma_nonempty (s : string) : split_comma s <> [].
Proof.
  induction s as [|c rest IH]; simpl; [discriminate|].
  destruct (Ascii.eqb c ","); [discriminate|]. destruct (split_comma rest); discriminate.
Qed.

Lemma sort_direction_of_cases (py_upper : string -> string) (sort : string) :
  sort_direction_of py_upper sort = "ASC" \/ sort_direction_of py_upper sort = "DESC".
Proof.
  unfold sort_direction_of.
  destruct (match split_comma sort with _ :: d :: _ => py_upper d | _ => "DESC" end) as [|c r] eqn:E.
  - right. reflexivity.
  - destruct (String.eqb_spec (String c r) "ASC") as [H|_]; [left; exact H|].
    destruct (String.eqb_spec (String c r) "DESC") as [H|_]; [right; exact H|].
    right. reflexivity.
Qed.

(** [PaginationParams] always yields a page of at least 1, a size between 1
    and 100, the offset [(page - 1) * size] (never negative) and a
    direction ["ASC"] or ["DESC"], whatever [str.upper] does; the sort field
    is the first comma-separated piece ([split] never returns an empty
    list, so the ["created_at"] fallback is never taken).  Page and size
    already in range are kept as they are. *)
Theorem pagination_params_bounds (py_upper : string -> string) (page size : Z) (sort : string) :
  let p := PaginationParams py_upper page size sort in
  1 <= pg_page p /\ 1 <= pg_size p <= 100 /\
  pg_offset p = (pg_page p - 1) * pg_size p /\ 0 <= pg_offset p /\
  (pg_sort_direction p = "ASC" \/ pg_sort_direction p = "DESC") /\
  (exists rest, split_comma sort = pg_sort_field p :: rest) /\
  (1 <= page -> 1 <= size <= 100 -> pg_page p = page /\ pg_size p = size).
Proof.
  cbv zeta. unfold PaginationParams. simpl.
  split; [lia|]. split; [lia|]. split; [reflexivity|]. split; [nia|].
  split; [apply sort_direction_of_cases|]. split.
  - unfold sort_field_of. pose proof (split_comma_nonempty sort) as Hn.
    destruct (split_comma sort) as [|f r]; [contradiction|]. exists r. reflexivity.
  - intros Hp Hs. split; lia.
Qed.

(** The two pagination helpers agree on page, offset and sort, and on
    sizes from 1 to 100; outside that range [get_pagination_params]
    resets the size to 20 while [PaginationParams] clamps it (to 100 above,
    to 1 below). *)
Theorem pagination_helpers_differ_on_size (py_upper : string -> string) (page size : Z)
    (sort : string) :
  (1 <= size <= 100 ->
     get_pagination_params py_upper page size sort = PaginationParams py_upper page size sort) /\
  (100 < size ->
     pg_size (get_pagination_params py_upper page size sort) = 20 /\
     pg_size (PaginationParams py_upper page size sort) = 100) /\
  (size < 1 ->
     pg_size (get_pagination_params py_upper page size sort) = 20 /\
     pg_size (PaginationParams py_upper page size sort) = 1) /\
  pg_page (get_pagination_params py_upper page size sort) = pg_page (PaginationParams py_upper page size sort).
Proof.
  unfold get_pagination_params, PaginationParams. simpl.
  assert (Hpage : (if page <? 1 then 1 else page) = Z.max 1 page)
    by (destruct (Z.ltb_spec page 1); lia).
  split; [|split; [|split]].
  - intros Hs. rewrite Hpage.
    replace ((size <? 1) || (100 <? size)) with false
      by (symmetry; apply orb_false_iff; split; apply Z.ltb_ge; lia).
    replace (Z.min (Z.max 1 size) 100) with size by lia. reflexivity.
  - intros Hs. replace ((size <? 1) || (100 <? size)) with true
      by (symmetry; apply orb_true_iff; right; apply Z.ltb_lt; lia).
    split; lia.
  - intros Hs. replace ((size <? 1) || (100 <? size)) with true
      by (symmetry; apply orb_true_iff; left; apply Z.ltb_lt; lia).
    split; lia.
  - exact Hpage.
Qed.

(** *** Reward history *)

Lemma in_firstn {A} (n : nat) (l : list A) (x : A) : In x (firstn n l) -> In x l.
Proof. intros H. rewrite <- (firstn_skipn n l). apply in_or_app. left. exact H. Qed.

Lemma in_skipn {A} (n : nat) (l : list A) (x : A) : In x (skipn n l) -> In x l.
Proof. intros H. rewrite <- (firstn_skipn n l). apply in_or_app. right. exact H. Qed.

(** Whatever order the database returns rows with equal [created_at] in,
    the reward history of a user lists only that user's ledger rows; its
    [total] is the number of those rows, and page [page] holds
    [min(size, total - (page - 1) * size)] of them (none past the last
    page). *)
Theorem rewards_history_page (order : list ledger_row -> list ledger_row) (d : db) (uid : uuid)
    (page size : Z) :
  (forall l, Permutation (order l) l) ->
  1 <= page -> 1 <= size <= 100 ->
  let r := get_rewards_history order d uid page size in
  (forall x, In x (hp_items r) -> In x (ledger d) /\ r_user x = uid) /\
  hp_total r = Z.of_nat (List.length (filter (fun r => r_user r =? uid) (ledger d))) /\
  Z.of_nat (List.length (hp_items r)) = Z.max 0 (Z.min size (hp_total r - (page - 1) * size)).
Proof.
  intros Hperm Hp Hs. cbv zeta. unfold get_rewards_history. simpl.
  set (mine := filter (fun r => r_user r =? uid) (ledger d)).
  split; [|split; [reflexivity|]].
  - intros x Hx. apply in_firstn, in_skipn in Hx.
    apply (Permutation_in _ (Hperm mine)) in Hx. unfold mine in Hx.
    apply filter_In in Hx. destruct Hx as [Hin Hu]. split; [exact Hin|apply Z.eqb_eq; exact Hu].
  - rewrite length_firstn, length_skipn, (Permutation_length (Hperm mine)).
    rewrite Nat2Z.inj_min, Nat2Z.inj_sub_max, !Z2Nat.id by nia. lia.
Qed.

Lemma rewards_history_page_witness :
  let r := get_rewards_history (@rev ledger_row) Fixtures.synced_db 1 1 20 in
  (forall x, In x (hp_items r) -> In x (ledger Fixtures.synced_db) /\ r_user x = 1) /\
  hp_total r = Z.of_nat (List.length (filter (fun r => r_user r =? 1) (ledger Fixtures.synced_db))) /\
  Z.of_nat (List.length (hp_items r)) = Z.max 0 (Z.min 20 (hp_total r - (1 - 1) * 20)).
Proof.
  apply (rewards_history_page (@rev ledger_row) Fixtures.synced_db 1 1 20);
    [intros l; apply Permutation_sym, Permutation_rev | lia | lia].
Defined.

(** *** Stage list of a content *)

Lemma in_stage_items (stage_no : stage -> string) (is_hidden : stage -> bool)
    (ps : list stage_progress) (uid : uuid) (ss : list stage) (it : stage_item) :
  In it (stage_items stage_no is_hidden ps uid ss) <->
  exists s, In s ss /\ is_hidden s && String.eqb (lock_state_of stage_no ps uid s) "locked" = false /\
            it = mk_stage_item (s_id s) (stage_no s) (is_hidden s) (lock_state_of stage_no ps uid s).
Proof.
  unfold stage_items. rewrite in_flat_map. split.
  - intros [s [Hs Hit]].
    destruct (is_hidden s && String.eqb (lock_state_of stage_no ps uid s) "locked") eqn:E;
      [destruct Hit|].
    destruct Hit as [<-|[]]. exists s. auto.
  - intros [s [Hs [E ->]]]. exists s. split; [exact Hs|]. rewrite E. left. reflexivity.
Qed.

(** What the stage list holds. *)
Lemma content_stages_items (stage_no : stage -> string) (is_hidden : stage -> bool)
    (order : list stage -> list stage) (d : db) (uid cid : uuid) (c : content)
    (cp : content_progress) :
  (forall l, Permutation (order l) l) ->
  filter (fun c => c_id c =? cid) (contents d) = [c] ->
  filter (fun p => (cp_user p =? uid) && (cp_content p =? cid)) (content_prog d) = [cp] ->
  exists items,
    get_content_stages stage_no is_hidden order d uid cid = (d, Ok items) /\
    (forall s, In s (stages d) -> s_content s = cid -> s_parent s = None ->
       In (mk_stage_item (s_id s) (stage_no s) (is_hidden s)
                         (lock_state_of stage_no (stage_prog d) uid s)) items <->
       ~ (is_hidden s = true /\ lock_state_of stage_no (stage_prog d) uid s = "locked")) /\
    (forall it, In it items ->
       exists s, In s (stages d) /\ s_content s = cid /\ s_parent s = None /\
                 si_id it = s_id s /\ si_lock_state it = lock_state_of stage_no (stage_prog d) uid s).
Proof.
  intros Hperm Hc Hcp.
  unfold get_content_stages, run_tx, content_stages_body, bind, get_db.
  rewrite Hc. simpl. rewrite Hcp. simpl.
  set (top := filter (fun s => (s_content s =? cid) && is_none (s_parent s)) (stages d)).
  eexists. split; [reflexivity|]. split.
  - intros s Hs Hsc Hsp. rewrite in_stage_items. split.
    + intros [s' [Hin [E Heq]]] [Hh Hl].
      inversion Heq as [[Hid Hno Hhid Hlock]].
      rewrite <- Hhid, <- Hlock in E. rewrite Hh, Hl in E. discriminate.
    + intros Hn. exists s. split; [|split; [|reflexivity]].
      * apply (Permutation_in _ (Permutation_sym (Hperm top))). unfold top.
        apply filter_In. split; [exact Hs|]. rewrite Hsc, Hsp, Z.eqb_refl. reflexivity.
      * destruct (is_hidden s) eqn:Eh; [|reflexivity]. simpl.
        destruct (String.eqb_spec (lock_state_of stage_no (stage_prog d) uid s) "locked");
          [exfalso; exact (Hn (conj eq_refl e))|reflexivity].
  - intros it Hit. apply in_stage_items in Hit. destruct Hit as [s [Hin [_ ->]]].
    apply (Permutation_in _ (Hperm top)) in Hin. unfold top in Hin.
    apply filter_In in Hin. destruct Hin as [Hs Hf]. apply andb_true_iff in Hf.
    destruct Hf as [Hsc Hsp]. apply Z.eqb_eq in Hsc.
    exists s. repeat split; try assumption; try reflexivity.
    destruct (s_parent s); [discriminate|reflexivity].
Qed.

(** For a user who has joined the content, the stage list holds one item
    per top-level stage of the content, except the hidden stages whose
    lock state is ["locked"]; an item's lock state is the status of the
    user's progress row when there is one, otherwise ["unlocked"] for
    stage number ["1"] and ["locked"] for the others.  Stages of other
    contents and sub-stages never appear.  The request writes nothing. *)
Theorem content_stages_listing (stage_no : stage -> string) (is_hidden : stage -> bool)
    (order : list stage -> list stage) (d : db) (uid cid : uuid) (c : content)
    (cp : content_progress) :
  (forall l, Permutation (order l) l) ->
  filter (fun c => c_id c =? cid) (contents d) = [c] ->
  filter (fun p => (cp_user p =? uid) && (cp_content p =? cid)) (content_prog d) = [cp] ->
  exists items,
    get_content_stages stage_no is_hidden order d uid cid = (d, Ok items) /\
    (forall s, In s (stages d) -> s_content s = cid -> s_parent s = None ->
       In (mk_stage_item (s_id s) (stage_no s) (is_hidden s)
                         (lock_state_of stage_no (stage_prog d) uid s)) items <->
       ~ (is_hidden s = true /\ lock_state_of stage_no (stage_prog d) uid s = "locked")) /\
    (forall it, In it items ->
       exists s, In s (stages d) /\ s_content s = cid /\ s_parent s = None /\
                 si_id it = s_id s /\ si_lock_state it = lock_state_of stage_no (stage_prog d) uid s).
Proof. exact (content_stages_items stage_no is_hidden order d uid cid c cp). Qed.

Lemma content_stages_listing_witness :
  exists items,
    get_content_stages Fixtures.stage_no_of Fixtures.hidden_of (fun l => l) Fixtures.unlock_db 1 10
      = (Fixtures.unlock_db, Ok items) /\
    (forall s, In s (stages Fixtures.unlock_db) -> s_content s = 10 -> s_parent s = None ->
       In (mk_stage_item (s_id s) (Fixtures.stage_no_of s) (Fixtures.hidden_of s)
             (lock_state_of Fixtures.stage_no_of (stage_prog Fixtures.unlock_db) 1 s)) items <->
       ~ (Fixtures.hidden_of s = true /\
          lock_state_of Fixtures.stage_no_of (stage_prog Fixtures.unlock_db) 1 s = "locked")) /\
    (forall it, In it items ->
       exists s, In s (stages Fixtures.unlock_db) /\ s_content s = 10 /\ s_parent s = None /\
                 si_id it = s_id s /\
                 si_lock_state it = lock_state_of Fixtures.stage_no_of (stage_prog Fixtures.unlock_db) 1 s).
Proof.
  apply (content_stages_listing Fixtures.stage_no_of Fixtures.hidden_of (fun l => l)
           Fixtures.unlock_db 1 10 Fixtures.open_content (mk_cp 1 10 "in_progress" (Some 0) None));
    [intros l; apply Permutation_refl | reflexivity | reflexivity].
Defined.

(** [unlock_stage] writes only progress rows. *)
Lemma unlock_stage_frame (usid : stage -> option uuid) (d : db) (uid sid : uuid) (now : Z) :
  exists f, fst (unlock_stage usid d uid sid now) = set_stage_prog f d.
Proof.
  assert (Hid : d = set_stage_prog (fun ps => ps) d) by (destruct d; reflexivity).
  unfold unlock_stage, run_tx.
  destruct (unlock_body usid uid sid now d) as [[d' x]|e] eqn:Hb; simpl; [|exists (fun ps => ps); exact Hid].
  unfold unlock_body, unlock_rest, bind, get_db, ret, raise, modify_db in Hb.
  tx_simpl Hb. tx_split Hb.
  all: inversion Hb; subst; first [exists (fun ps => ps); exact Hid | eexists; reflexivity].
Qed.

Lemma set_stage_prog_stages f d : stages (set_stage_prog f d) = stages d.
Proof. reflexivity. Qed.

(** Unlocking reveals a hidden stage: a hidden top-level stage whose lock
    state is ["locked"] is absent from the user's stage list; after a
    successful [unlock_stage] of it, the list shows it with lock state
    ["unlocked"]. *)
Theorem unlock_reveals_hidden_stage (usid : stage -> option uuid) (stage_no : stage -> string)
    (is_hidden : stage -> bool) (order : list stage -> list stage) (d : db) (uid sid : uuid)
    (now : Z) (st : stage) (c : content) (cp : content_progress) :
  (forall l, Permutation (order l) l) ->
  filter (fun s => s_id s =? sid) (stages d) = [st] ->
  s_parent st = None ->
  filter (fun c => c_id c =? s_content st) (contents d) = [c] ->
  filter (fun q => (cp_user q =? uid) && (cp_content q =? s_content st)) (content_prog d) = [cp] ->
  is_hidden st = true ->
  lock_state_of stage_no (stage_prog d) uid st = "locked" ->
  (progress_of (stage_prog d) uid sid = [] \/
   exists p, progress_of (stage_prog d) uid sid = [p] /\ sp_status p = "locked") ->
  match usid st with
  | Some r => exists rp, progress_of (stage_prog d) uid r = [rp] /\ sp_status rp = "cleared"
  | None => True
  end ->
  (exists items,
     get_content_stages stage_no is_hidden order d uid (s_content st) = (d, Ok items) /\
     forall it, In it items -> si_id it <> sid) /\
  exists d' items',
    unlock_stage usid d uid sid now = (d', Ok (true, now)) /\
    get_content_stages stage_no is_hidden order d' uid (s_content st) = (d', Ok items') /\
    In (mk_stage_item sid (stage_no st) true "unlocked") items'.
Proof.
  intros Hperm Hs Hpar Hc Hcp Hh Hl Hp Hr.
  assert (Hst : In st (stages d) /\ s_id st = sid).
  { assert (In st (filter (fun s => s_id s =? sid) (stages d))) by (rewrite Hs; left; reflexivity).
    apply filter_In in H. destruct H as [H1 H2]. apply Z.eqb_eq in H2. auto. }
  destruct Hst as [Hin Hid].
  split.
  - unfold get_content_stages, run_tx, content_stages_body, bind, get_db.
    rewrite Hc. simpl. rewrite Hcp. simpl. eexists. split; [reflexivity|].
    intros it Hit. apply in_stage_items in Hit. destruct Hit as [s [Hs' [E ->]]]. simpl.
    intros Hsid. apply (Permutation_in _ (Hperm _)) in Hs'. apply filter_In in Hs'.
    destruct Hs' as [Hs' _].
    assert (Hsf : In s (filter (fun s => s_id s =? sid) (stages d)))
      by (apply filter_In; split; [exact Hs'|apply Z.eqb_eq; exact Hsid]).
    rewrite Hs in Hsf. destruct Hsf as [<-|[]]. rewrite Hh, Hl in E. discriminate.
  - destruct (unlock_stage_success usid d uid sid now st cp Hs Hcp Hp Hr)
      as [d' [Hrun [[p' [Hp' [Hps _]]] _]]].
    destruct (unlock_stage_frame usid d uid sid now) as [f Hf].
    rewrite Hrun in Hf. simpl in Hf.
    subst d'. exists (set_stage_prog f d). unfold get_content_stages, run_tx, content_stages_body, bind, get_db.
    simpl. rewrite Hc. simpl. rewrite Hcp. simpl.
    eexists. split; [exact Hrun|]. split; [reflexivity|].
    apply in_stage_items. exists st.
    assert (Hlock : lock_state_of stage_no (f (stage_prog d)) uid st = "unlocked").
    { unfold lock_state_of, progress_lookup. simpl in Hp'.
      rewrite Hid, Hp'. simpl. exact Hps. }
    rewrite Hlock, Hh, Hid. split; [|split; reflexivity].
    apply (Permutation_in _ (Permutation_sym (Hperm _))). apply filter_In.
    split; [exact Hin|]. rewrite Z.eqb_refl, Hpar. reflexivity.
Qed.

Lemma unlock_reveals_hidden_stage_witness :
  (exists items,
     get_content_stages Fixtures.stage_no_of Fixtures.hidden_of (fun l => l) Fixtures.unlock_db 1 10
       = (Fixtures.unlock_db, Ok items) /\
     forall it, In it items -> si_id it <> 2) /\
  exists d' items',
    unlock_stage (fun _ => None) Fixtures.unlock_db 1 2 50 = (d', Ok (true, 50)) /\
    get_content_stages Fixtures.stage_no_of Fixtures.hidden_of (fun l => l) d' 1 10 = (d', Ok items') /\
    In (mk_stage_item 2 "2" true "unlocked") items'.
Proof.
  exact (unlock_reveals_hidden_stage (fun _ => None) Fixtures.stage_no_of Fixtures.hidden_of
           (fun l => l) Fixtures.unlock_db 1 2 50 (mk_stage 2 10 None) Fixtures.open_content
           (mk_cp 1 10 "in_progress" (Some 0) None)
           (fun l => Permutation_refl l) eq_refl eq_refl eq_refl eq_refl eq_refl eq_refl
           (or_introl eq_refl) I).
Defined.
